(** * Bulk File Renamer (bulk_rename.py): a shallow embedding

    The Python script is embedded as Rocq functions:

    - a Python [str] is a [string]; a character is a code point below 256
      (the 8-bit [ascii] of the Standard Library), and the classification
      tables used by [str.strip] and [str.lower] are Python's on that range;
    - the directory that is renamed is a finite map from entry names to
      nodes, threaded explicitly through the executor;
    - the functions of Python's standard library that the script calls
      ([os.path.splitext], [str.replace], [str.strip], [str.lower]) are
      written out after CPython; the regular-expression engine and the
      format mini-language are parameters of the planner, with a model of a
      fragment of each further down. *)

From Stdlib Require Import ZArith Ascii String DecimalString Lia.
From stdpp Require Import base option list gmap strings sorting.

Local Open Scope Z_scope.

(** ** Python [str] operations *)
Module PyStr.

Definition len (s : string) : Z := Z.of_nat (String.length s).

(** [s.rfind(c)] for a one-character [c]: the highest index at which [c]
    occurs, [-1] when it does not occur. *)
Fixpoint rfind (c : ascii) (s : string) : Z :=
  match s with
  | EmptyString => -1
  | String a t =>
      let r := rfind c t in
      if 0 <=? r then r + 1
      else if Ascii.eqb a c then 0 else -1
  end.

(** [s[a:b]] for [0 <= a]; an end beyond the string is clipped. *)
Definition slice (a b : Z) (s : string) : string :=
  String.substring (Z.to_nat a) (Z.to_nat (b - a)) s.

(** [s[:b]] and [s[a:]]. *)
Definition slice_to (b : Z) (s : string) : string := slice 0 b s.
Definition slice_from (a : Z) (s : string) : string := slice a (len s) s.

(** [c in s] for a one-character [c]. *)
Fixpoint contains (c : ascii) (s : string) : bool :=
  match s with
  | EmptyString => false
  | String a t => Ascii.eqb a c || contains c t
  end.

(** [str.replace(old, new)] with an empty [old]: CPython's interleaving
    loop copies [new], then alternately one character of the string and
    [new] again. *)
Fixpoint replace_interleave (new s : string) : string :=
  match s with
  | EmptyString => new
  | String a t => new +:+ String a (replace_interleave new t)
  end.

(** [str.replace(old, new)] with a non-empty [old]: scan from the left;
    at an occurrence of [old] emit [new] and jump over the occurrence.
    [skip] counts the characters of the occurrence still to jump over. *)
Fixpoint replace_scan (old new : string) (skip : nat) (s : string) : string :=
  match s with
  | EmptyString => EmptyString
  | String a t =>
      match skip with
      | S k => replace_scan old new k t
      | O =>
          if String.prefix old s
          then new +:+ replace_scan old new (Nat.pred (String.length old)) t
          else String a (replace_scan old new O t)
      end
  end.

Definition replace (old new s : string) : string :=
  match old with
  | EmptyString => replace_interleave new s
  | String _ _ => replace_scan old new O s
  end.

(** [str.isspace] on code points below 256: TAB, LF, VT, FF, CR, the four
    separators FS, GS, RS, US, the space, NEL and the no-break space. *)
Definition isspace (c : ascii) : bool :=
  let n := N_of_ascii c in
  ((9 <=? n) && (n <=? 13) || (28 <=? n) && (n <=? 32)
   || (n =? 133) || (n =? 160))%N.

Fixpoint lstrip (s : string) : string :=
  match s with
  | EmptyString => EmptyString
  | String a t => if isspace a then lstrip t else s
  end.

Fixpoint rstrip (s : string) : string :=
  match s with
  | EmptyString => EmptyString
  | String a t =>
      match rstrip t with
      | EmptyString => if isspace a then EmptyString else String a EmptyString
      | r => String a r
      end
  end.

(** [s.strip()] *)
Definition strip (s : string) : string := rstrip (lstrip s).

(** [str.lower] on one code point below 256: A-Z, and the Latin-1 capitals
    U+00C0-U+00DE without the multiplication sign U+00D7. *)
Definition lower_char (c : ascii) : ascii :=
  let n := N_of_ascii c in
  if ((65 <=? n) && (n <=? 90)
      || (192 <=? n) && (n <=? 222) && negb (n =? 215))%N
  then ascii_of_N (n + 32) else c.

(** [s.lower()] *)
Fixpoint lower (s : string) : string :=
  match s with
  | EmptyString => EmptyString
  | String a t => String (lower_char a) (lower t)
  end.

End PyStr.

(** ** [os.path.splitext] (posixpath, through genericpath._splitext) *)
Module OsPath.
Import PyStr.

Definition sep : ascii := "/"%char.
Definition extsep : ascii := "."%char.

(** The loop that skips the leading dots of the last path component:
<<
      while filenameIndex < dotIndex:
          if p[filenameIndex:filenameIndex+1] != extsep:
              return p[:dotIndex], p[dotIndex:]
          filenameIndex += 1
>>
    [true] when the loop returns the split, [false] when it runs off its
    end.  [fuel] bounds the number of iterations. *)
Fixpoint skip_leading_dots (fuel : nat) (p : string) (dotIndex filenameIndex : Z)
  : bool :=
  match fuel with
  | O => false
  | S k =>
      if filenameIndex <? dotIndex then
        if negb (String.eqb (slice filenameIndex (filenameIndex + 1) p)
                            (String extsep EmptyString))
        then true
        else skip_leading_dots k p dotIndex (filenameIndex + 1)
      else false
  end.

Definition splitext (p : string) : string * string :=
  let sepIndex := rfind sep p in
  let dotIndex := rfind extsep p in
  if (sepIndex <? dotIndex)
     && skip_leading_dots (Z.to_nat (dotIndex - (sepIndex + 1))) p dotIndex (sepIndex + 1)
  then (slice_to dotIndex p, slice_from dotIndex p)
  else (p, slice_to 0 p).

End OsPath.

Import PyStr OsPath.

(** ** The transforms that do not depend on a parameter *)

Definition add_prefix (filename prefix : string) : string :=
  let '(name, ext) := splitext filename in
  prefix +:+ name +:+ ext.

Definition add_suffix (filename suffix : string) : string :=
  let '(name, ext) := splitext filename in
  name +:+ suffix +:+ ext.

Definition replace_text (filename old_text new_text : string) : string :=
  let '(name, ext) := splitext filename in
  let new_name := replace old_text new_text name in
  new_name +:+ ext.


(** ** What the script takes from its platform

    [re_sub pattern repl s] is [re.sub(pattern, repl, s)] and
    [str_format template fields] is [template.format] called with the
    keyword arguments [fields]; each is
    [None] when the call raises.  [os_error d old new] tells that the
    operating system refuses to rename [old] to [new] in the directory [d]
    (permissions, a name that is too long, ...). *)

Inductive node := File (inode : nat) | Subdir.

Record format_kwargs := {
  fk_name : string;
  fk_ext : string;
  fk_index : option Z;
  fk_counter : option Z
}.

Class Platform := {
  re_sub : string -> string -> string -> option string;
  str_format : string -> format_kwargs -> option string;
  os_error : gmap string node -> string -> string -> bool
}.

(** The keyword arguments of [bulk_rename]; an absent key is [None]. *)
Record kwargs := {
  kw_prefix : option string;
  kw_suffix : option string;
  kw_old_text : option string;
  kw_new_text : option string;
  kw_pattern : option string;
  kw_replacement : option string;
  kw_force : option bool
}.

Definition no_kwargs : kwargs :=
  {| kw_prefix := None; kw_suffix := None; kw_old_text := None;
     kw_new_text := None; kw_pattern := None; kw_replacement := None;
     kw_force := None |}.

(** [kwargs.get(key, default)] *)
Definition get {A} (v : option A) (default : A) : A :=
  match v with Some x => x | None => default end.

Inductive exn := ReError | FormatError | EOFError.

(** What the script prints, one constructor per [print] call.  The two
    [MsgError...] lines of the executor both start with the word for
    "error" in the source. *)
Inductive message :=
| MsgNotADirectory
| MsgNoFiles
| MsgUnknownMode (mode : string)
| MsgNoChanges
| MsgPreview (changes : list (string * string))
| MsgCancelled
| MsgErrorTargetExists (old_name new_name : string)
| MsgErrorRenameFailed (old_name new_name : string)
| MsgDone (success_count error_count : Z).

(** Which statement ended the call of [bulk_rename]. *)
Inductive status :=
| RetNotADirectory
| RetNoFiles
| RetUnknownMode
| RetNoChanges
| RetCancelled
| RetDone (success_count error_count : Z)
| Raised (e : exn).

Record run := {
  run_status : status;
  run_dir : option (gmap string node);
  run_stdout : list message
}.

(** The result of one pass of the planning loop's body, and of the loop. *)
Inductive body_result :=
| NewName (new_name : string) (counter : Z)
| BodyUnknownMode
| BodyRaised (e : exn).

Inductive loop_result :=
| LoopDone (counter : Z) (changes : list (string * string))
| LoopUnknownMode
| LoopRaised (e : exn).

(** [enumerate(files, start)] *)
Fixpoint enumerate (files : list string) (start : Z) : list (Z * string) :=
  match files with
  | [] => []
  | f :: rest => (start, f) :: enumerate rest (start + 1)
  end.

(** ** The command line

    [argparse] on the parser that [main] builds: a positional [directory],
    then the sub-command [mode] with its own positionals and [-f]/[--force].
    A command line with another token that starts with [-] (an abbreviated
    or unknown option, a negative number, [--]) is outside this model. *)
Module Argparse.

Inductive pyval := VStr (s : string) | VBool (b : bool) | VNone.

(** The result of [parse_args]: the process has exited (help: 0, usage
    error: 2), or a namespace of attributes. *)
Inductive outcome :=
| Exit (status : Z)
| Parsed (args : gmap string pyval)
| NotModelled.

(** The sub-parsers that [main] adds, each with the destinations of its
    positional arguments. *)
Definition subparsers : list (string * list string) :=
  [ ("prefix", ["prefix"]);
    ("suffix", ["suffix"]);
    ("replace", ["old_text"; "new_text"]);
    ("regex", ["pattern"; "replacement"]);
    ("pattern", ["pattern"]) ].

Definition optionlike (t : string) : bool := String.prefix "-" t.
Definition is_help (t : string) : bool := String.eqb t "-h" || String.eqb t "--help".
Definition is_force (t : string) : bool := String.eqb t "-f" || String.eqb t "--force".

Fixpoint assoc (k : string) (l : list (string * list string)) : option (list string) :=
  match l with
  | [] => None
  | (k', v) :: rest => if String.eqb k k' then Some v else assoc k rest
  end.

Fixpoint store (dests values : list string) (ns : gmap string pyval)
  : gmap string pyval :=
  match dests, values with
  | d :: dests', v :: values' => store dests' values' (<[d := VStr v]> ns)
  | _, _ => ns
  end.

Definition parse_subcommand (dests tokens : list string) (ns : gmap string pyval)
  : outcome :=
  if existsb is_help tokens then Exit 0
  else if existsb (fun t => optionlike t && negb (is_force t)) tokens then NotModelled
  else
    let positionals := filter (fun t => optionlike t = false) tokens in
    if Nat.eqb (length positionals) (length dests)
    then Parsed (<["force" := VBool (existsb is_force tokens)]> (store dests positionals ns))
    else Exit 2.

Definition parse_args (argv : list string) : outcome :=
  match argv with
  | [] => Exit 2
  | directory :: rest =>
      if optionlike directory then (if is_help directory then Exit 0 else NotModelled)
      else
        let ns : gmap string pyval := <["directory" := VStr directory]> ∅ in
        match rest with
        | [] => Parsed (<["mode" := VNone]> ns)
        | mode :: tokens =>
            if optionlike mode then (if is_help mode then Exit 0 else NotModelled)
            else match assoc mode subparsers with
                 | None => Exit 2
                 | Some dests => parse_subcommand dests tokens (<["mode" := VStr mode]> ns)
                 end
        end
  end.

(** [args.name] for an attribute that holds a string. *)
Definition attr (args : gmap string pyval) (name : string) : option string :=
  match args !! name with Some (VStr s) => Some s | _ => None end.

Definition attr_bool (args : gmap string pyval) (name : string) : option bool :=
  match args !! name with Some (VBool b) => Some b | _ => None end.

End Argparse.

(** ** The directory *)

Definition isfile (d : gmap string node) (f : string) : bool :=
  match d !! f with Some (File _) => true | _ => false end.

Definition listdir (d : gmap string node) : list string := (map_to_list d).*1.

Definition path_exists (d : gmap string node) (name : string) : bool :=
  bool_decide (is_Some (d !! name)).

(** [files.sort()]: by code points, that is [String.leb]. *)
Definition sort (files : list string) : list string := merge_sort String.le files.

Section Renamer.
Context `{Platform}.

(** [os.rename] inside the directory; [None] when it raises. *)
Definition os_rename (d : gmap string node) (old_name new_name : string)
  : option (gmap string node) :=
  if os_error d old_name new_name then None
  else match d !! old_name with
       | None => None
       | Some x => Some (<[new_name := x]> (delete old_name d))
       end.

Definition regex_replace (filename pattern replacement : string) : option string :=
  let '(name, ext) := splitext filename in
  match re_sub pattern replacement name with
  | Some new_name => Some (new_name +:+ ext)
  | None => None
  end.

Definition rename_with_pattern (filename pattern : string) : option string :=
  let '(name, ext) := splitext filename in
  str_format pattern
    {| fk_name := name; fk_ext := ext; fk_index := None; fk_counter := None |}.

(** The keyword arguments of the [format] call of pattern mode. *)
Definition pattern_fields (filename : string) (index counter : Z) : format_kwargs :=
  {| fk_name := fst (splitext filename);
     fk_ext := snd (splitext filename);
     fk_index := Some index;
     fk_counter := Some counter |}.

(** The body of the planning loop up to the computation of [new_name]. *)
Definition loop_body (mode : string) (kw : kwargs) (index : Z) (filename : string)
    (counter : Z) : body_result :=
  if String.eqb mode "prefix" then
    NewName (add_prefix filename (get (kw_prefix kw) "")) counter
  else if String.eqb mode "suffix" then
    NewName (add_suffix filename (get (kw_suffix kw) "")) counter
  else if String.eqb mode "replace" then
    NewName (replace_text filename (get (kw_old_text kw) "") (get (kw_new_text kw) ""))
            counter
  else if String.eqb mode "regex" then
    match regex_replace filename (get (kw_pattern kw) "") (get (kw_replacement kw) "") with
    | Some new_name => NewName new_name counter
    | None => BodyRaised ReError
    end
  else if String.eqb mode "pattern" then
    let pattern_str := get (kw_pattern kw) "{name}{ext}" in
    match str_format pattern_str (pattern_fields filename index counter) with
    | Some new_name => NewName new_name (counter + 1)
    | None => BodyRaised FormatError
    end
  else BodyUnknownMode.

(** [for index, filename in enumerate(files, 1): ...] *)
Fixpoint plan_loop (mode : string) (kw : kwargs) (items : list (Z * string))
    (counter : Z) (changes : list (string * string)) : loop_result :=
  match items with
  | [] => LoopDone counter changes
  | (index, filename) :: rest =>
      match loop_body mode kw index filename counter with
      | NewName new_name counter' =>
          if String.eqb new_name filename
          then plan_loop mode kw rest counter' changes
          else plan_loop mode kw rest counter' (changes ++ [(filename, new_name)])
      | BodyUnknownMode => LoopUnknownMode
      | BodyRaised e => LoopRaised e
      end
  end.

(** The state of the executor's loop. *)
Record applied := {
  ap_dir : gmap string node;
  ap_success : Z;
  ap_error : Z;
  ap_stdout : list message
}.

(** [print(error line); error_count += 1], in both failing branches. *)
Definition record_error (st : applied) (line : message) : applied :=
  {| ap_dir := ap_dir st; ap_success := ap_success st;
     ap_error := ap_error st + 1; ap_stdout := ap_stdout st ++ [line] |}.

(** [for old_name, new_name in changes: try: ... except Exception: ...] *)
Fixpoint apply_loop (changes : list (string * string)) (st : applied) : applied :=
  match changes with
  | [] => st
  | (old_name, new_name) :: rest =>
      if path_exists (ap_dir st) new_name then
        apply_loop rest (record_error st (MsgErrorTargetExists old_name new_name))
      else
        match os_rename (ap_dir st) old_name new_name with
        | Some d' =>
            apply_loop rest
              {| ap_dir := d'; ap_success := ap_success st + 1;
                 ap_error := ap_error st; ap_stdout := ap_stdout st |}
        | None =>
            apply_loop rest (record_error st (MsgErrorRenameFailed old_name new_name))
        end
  end.

(** The confirmation test: [input(...).strip().lower() != 'y'] cancels. *)
Definition confirmed (response : string) : bool :=
  String.eqb (lower (strip response)) "y".

(** The executor: the counters, the loop over the plan and the summary. *)
Definition execute (d : gmap string node) (changes : list (string * string))
    (out : list message) : run :=
  let st := apply_loop changes
              {| ap_dir := d; ap_success := 0; ap_error := 0; ap_stdout := out |} in
  {| run_status := RetDone (ap_success st) (ap_error st);
     run_dir := Some (ap_dir st);
     run_stdout := ap_stdout st ++ [MsgDone (ap_success st) (ap_error st)] |}.

(** [bulk_rename].  [dir] is what [directory]
    names: [None] when it is not a directory, its entries otherwise.
    [stdin] is the line that [input] reads, [None] at end of input. *)
Definition bulk_rename (dir : option (gmap string node)) (mode : string)
    (kw : kwargs) (stdin : option string) : run :=
  match dir with
  | None =>
      {| run_status := RetNotADirectory; run_dir := dir;
         run_stdout := [MsgNotADirectory] |}
  | Some d =>
      let files := filter (fun f => isfile d f = true) (listdir d) in
      match files with
      | [] => {| run_status := RetNoFiles; run_dir := dir; run_stdout := [MsgNoFiles] |}
      | _ :: _ =>
          let files := sort files in
          match plan_loop mode kw (enumerate files 1) 1 [] with
          | LoopUnknownMode =>
              {| run_status := RetUnknownMode; run_dir := dir;
                 run_stdout := [MsgUnknownMode mode] |}
          | LoopRaised e =>
              {| run_status := Raised e; run_dir := dir; run_stdout := [] |}
          | LoopDone _ [] =>
              {| run_status := RetNoChanges; run_dir := dir;
                 run_stdout := [MsgNoChanges] |}
          | LoopDone _ changes =>
              let out := [MsgPreview changes] in
              if negb (get (kw_force kw) false) then
                match stdin with
                | None => {| run_status := Raised EOFError; run_dir := dir;
                             run_stdout := out |}
                | Some response =>
                    if negb (confirmed response) then
                      {| run_status := RetCancelled; run_dir := dir;
                         run_stdout := out ++ [MsgCancelled] |}
                    else execute d changes out
                end
              else execute d changes out
          end
      end
  end.

(** [main]: the exit status of the process, and the run of [bulk_rename]
    when it is reached.  [fs] tells what a path names; an exception that
    leaves [bulk_rename] ends the process with status 1.  [None] only for
    a command line outside the model of [argparse]. *)
Definition main (argv : list string) (fs : string -> option (gmap string node))
    (stdin : option string) : option (Z * option run) :=
  match Argparse.parse_args argv with
  | Argparse.NotModelled => None
  | Argparse.Exit status => Some (status, None)
  | Argparse.Parsed args =>
      match Argparse.attr args "mode" with
      | None | Some EmptyString => Some (1, None)
      | Some mode =>
          let kwargs :=
            if String.eqb mode "prefix" then
              {| kw_prefix := Argparse.attr args "prefix"; kw_suffix := None;
                 kw_old_text := None; kw_new_text := None; kw_pattern := None;
                 kw_replacement := None; kw_force := None |}
            else if String.eqb mode "suffix" then
              {| kw_prefix := None; kw_suffix := Argparse.attr args "suffix";
                 kw_old_text := None; kw_new_text := None; kw_pattern := None;
                 kw_replacement := None; kw_force := None |}
            else if String.eqb mode "replace" then
              {| kw_prefix := None; kw_suffix := None;
                 kw_old_text := Argparse.attr args "old_text";
                 kw_new_text := Argparse.attr args "new_text"; kw_pattern := None;
                 kw_replacement := None; kw_force := None |}
            else if String.eqb mode "regex" then
              {| kw_prefix := None; kw_suffix := None; kw_old_text := None;
                 kw_new_text := None; kw_pattern := Argparse.attr args "pattern";
                 kw_replacement := Argparse.attr args "replacement";
                 kw_force := None |}
            else if String.eqb mode "pattern" then
              {| kw_prefix := None; kw_suffix := None; kw_old_text := None;
                 kw_new_text := None; kw_pattern := Argparse.attr args "pattern";
                 kw_replacement := None; kw_force := None |}
            else no_kwargs in
          let kwargs :=
            {| kw_prefix := kw_prefix kwargs; kw_suffix := kw_suffix kwargs;
               kw_old_text := kw_old_text kwargs; kw_new_text := kw_new_text kwargs;
               kw_pattern := kw_pattern kwargs;
               kw_replacement := kw_replacement kwargs;
               kw_force := Argparse.attr_bool args "force" |} in
          let r := bulk_rename (fs (get (Argparse.attr args "directory") ""))
                               mode kwargs stdin in
          Some (match run_status r with Raised _ => 1 | _ => 0 end, Some r)
      end
  end.

End Renamer.

(** ** A fragment of Python's [re]: what [re.sub] does on patterns built
    from literal characters, [.], [\d], escaped punctuation, groups [( )],
    alternation [|] and the greedy quantifiers [*], [+], [?].

    [None] stands for [re.error], and also for a pattern or a replacement
    outside the fragment; the fragment is evaluated only inside it. *)
Module Re.

Inductive regex :=
| Eps
| Chr (c : ascii)
| AnyChar
| Digit
| Seq (r1 r2 : regex)
| Alt (r1 r2 : regex)
| Star (r : regex)
| Group (n : nat) (r : regex).

Definition is_digit (c : ascii) : bool :=
  let n := N_of_ascii c in ((48 <=? n) && (n <=? 57))%N.

Definition is_alpha (c : ascii) : bool :=
  let n := N_of_ascii c in
  ((65 <=? n) && (n <=? 90) || (97 <=? n) && (n <=? 122))%N.

Definition digit_value (c : ascii) : nat := N.to_nat (N_of_ascii c - 48).

(** *** Parsing a pattern: [alt ::= seq ('|' alt)?], [seq ::= rep*],
    [rep ::= atom ('*' | '+' | '?')?].  The [nat] that is threaded is the
    number of groups opened so far. *)
Definition is_quantifier (c : ascii) : bool :=
  Ascii.eqb c "*" || Ascii.eqb c "+" || Ascii.eqb c "?".

Definition quantify (q : ascii) (r : regex) : regex :=
  if Ascii.eqb q "*" then Star r
  else if Ascii.eqb q "+" then Seq r (Star r)
  else Alt r Eps.

Definition unsupported_atom (c : ascii) : bool :=
  Ascii.eqb c "[" || Ascii.eqb c "]" || Ascii.eqb c "{" || Ascii.eqb c "}"
  || Ascii.eqb c "^" || Ascii.eqb c "$" || is_quantifier c.

Fixpoint parse_alt (fuel : nat) (s : string) (g : nat)
  : option (regex * string * nat) :=
  match fuel with
  | O => None
  | S k =>
      match parse_seq k s g with
      | Some (r1, String "|" rest, g1) =>
          match parse_alt k rest g1 with
          | Some (r2, rest', g2) => Some (Alt r1 r2, rest', g2)
          | None => None
          end
      | other => other
      end
  end
with parse_seq (fuel : nat) (s : string) (g : nat)
  : option (regex * string * nat) :=
  match fuel with
  | O => None
  | S k =>
      match s with
      | EmptyString | String "|" _ | String ")" _ => Some (Eps, s, g)
      | _ =>
          match parse_rep k s g with
          | Some (r1, rest, g1) =>
              match parse_seq k rest g1 with
              | Some (Eps, rest', g2) => Some (r1, rest', g2)
              | Some (r2, rest', g2) => Some (Seq r1 r2, rest', g2)
              | None => None
              end
          | None => None
          end
      end
  end
with parse_rep (fuel : nat) (s : string) (g : nat)
  : option (regex * string * nat) :=
  match fuel with
  | O => None
  | S k =>
      match parse_atom k s g with
      | Some (r, String q rest, g1) =>
          if is_quantifier q then
            match rest with
            | String q' _ =>
                if is_quantifier q' then None else Some (quantify q r, rest, g1)
            | EmptyString => Some (quantify q r, rest, g1)
            end
          else Some (r, String q rest, g1)
      | other => other
      end
  end
with parse_atom (fuel : nat) (s : string) (g : nat)
  : option (regex * string * nat) :=
  match fuel with
  | O => None
  | S k =>
      match s with
      | EmptyString => None
      | String "(" (String "?" _) => None
      | String "(" rest =>
          match parse_alt k rest (S g) with
          | Some (r, String ")" rest', g1) => Some (Group (S g) r, rest', g1)
          | _ => None
          end
      | String "." rest => Some (AnyChar, rest, g)
      | String "\" (String c rest) =>
          if Ascii.eqb c "d" then Some (Digit, rest, g)
          else if is_alpha c || is_digit c then None
          else Some (Chr c, rest, g)
      | String "\" EmptyString => None
      | String c rest =>
          if unsupported_atom c then None else Some (Chr c, rest, g)
      end
  end.

(** [re.compile]: the expression and its number of groups. *)
Definition compile (pattern : string) : option (regex * nat) :=
  match parse_alt (4 * String.length pattern + 8) pattern 0 with
  | Some (r, EmptyString, g) => Some (r, g)
  | _ => None
  end.

(** *** Matching, by backtracking.  [m r s caps k] matches [r] at the
    start of [s] and hands the rest of the string and the captures to the
    continuation [k]; a failing continuation makes it try the next way. *)
Definition consumed (s rest : string) : string :=
  String.substring 0 (String.length s - String.length rest) s.

Fixpoint m {A} (r : regex) (s : string) (caps : gmap nat string)
    (k : string -> gmap nat string -> option A) : option A :=
  match r with
  | Eps => k s caps
  | Chr c =>
      match s with
      | String a t => if Ascii.eqb a c then k t caps else None
      | EmptyString => None
      end
  | AnyChar =>
      match s with
      | String a t => if Ascii.eqb a "010" then None else k t caps
      | EmptyString => None
      end
  | Digit =>
      match s with
      | String a t => if is_digit a then k t caps else None
      | EmptyString => None
      end
  | Seq r1 r2 => m r1 s caps (fun s' caps' => m r2 s' caps' k)
  | Alt r1 r2 =>
      match m r1 s caps k with
      | Some x => Some x
      | None => m r2 s caps k
      end
  | Star r' =>
      (fix star (n : nat) (s : string) (caps : gmap nat string) : option A :=
         match n with
         | O => k s caps
         | S n' =>
             match m r' s caps
                     (fun s' caps' =>
                        if (String.length s' <? String.length s)%nat
                        then star n' s' caps' else None) with
             | Some x => Some x
             | None => k s caps
             end
         end) (String.length s) s caps
  | Group n r' =>
      m r' s caps (fun s' caps' => k s' (<[n := consumed s s']> caps'))
  end.

(** One attempt at the start of [s]; with [must_advance] an empty match is
    refused. *)
Definition match_here (r : regex) (s : string) (must_advance : bool)
  : option (string * gmap nat string) :=
  m r s ∅
    (fun s' caps =>
       if must_advance && (String.length s' =? String.length s)%nat then None
       else Some (s', <[O := consumed s s']> caps)).

(** The leftmost match: the text before it, the text after it, the
    captures.  Only the first attempt is subject to [must_advance]. *)
Fixpoint search (r : regex) (s : string) (must_advance : bool)
  : option (string * string * gmap nat string) :=
  match match_here r s must_advance with
  | Some (rest, caps) => Some (EmptyString, rest, caps)
  | None =>
      match s with
      | EmptyString => None
      | String a t =>
          match search r t false with
          | Some (before, rest, caps) => Some (String a before, rest, caps)
          | None => None
          end
      end
  end.

(** *** The replacement template *)
Inductive titem := TLit (c : ascii) | TGroup (n : nat).

Fixpoint number (digits : string) (acc : nat) : option (nat * string) :=
  match digits with
  | String c rest =>
      if is_digit c then number rest (10 * acc + digit_value c)
      else Some (acc, digits)
  | EmptyString => Some (acc, digits)
  end.

Definition escape (c : ascii) : option ascii :=
  if Ascii.eqb c "\" then Some "\"%char
  else if Ascii.eqb c "n" then Some "010"%char
  else if Ascii.eqb c "t" then Some "009"%char
  else if Ascii.eqb c "r" then Some "013"%char
  else if Ascii.eqb c "a" then Some "007"%char
  else if Ascii.eqb c "b" then Some "008"%char
  else if Ascii.eqb c "f" then Some "012"%char
  else if Ascii.eqb c "v" then Some "011"%char
  else None.

Definition group_ref (n groups : nat) (rest : option (list titem))
  : option (list titem) :=
  if (n <=? groups)%nat
  then match rest with Some items => Some (TGroup n :: items) | None => None end
  else None.

Fixpoint parse_template (fuel : nat) (t : string) (groups : nat)
  : option (list titem) :=
  match fuel with
  | O => match t with EmptyString => Some [] | _ => None end
  | S k =>
      match t with
      | EmptyString => Some []
      | String "\" EmptyString => None
      | String "\" (String "g" (String "<" rest)) =>
          match rest with
          | String d _ =>
              if is_digit d then
                match number rest 0 with
                | Some (n, String ">" rest') =>
                    group_ref n groups (parse_template k rest' groups)
                | _ => None
                end
              else None
          | EmptyString => None
          end
      | String "\" (String c rest) =>
          if Ascii.eqb c "0" then None
          else if is_digit c then
            match rest with
            | String c' rest' =>
                if is_digit c' then
                  match rest' with
                  | String c'' _ =>
                      if is_digit c'' then None
                      else group_ref (10 * digit_value c + digit_value c') groups
                             (parse_template k rest' groups)
                  | EmptyString =>
                      group_ref (10 * digit_value c + digit_value c') groups
                        (parse_template k rest' groups)
                  end
                else group_ref (digit_value c) groups (parse_template k rest groups)
            | EmptyString => group_ref (digit_value c) groups (Some [])
            end
          else
            match escape c with
            | Some e =>
                match parse_template k rest groups with
                | Some items => Some (TLit e :: items)
                | None => None
                end
            | None =>
                if is_alpha c then None
                else match parse_template k rest groups with
                     | Some items => Some (TLit "\" :: TLit c :: items)
                     | None => None
                     end
            end
      | String c rest =>
          match parse_template k rest groups with
          | Some items => Some (TLit c :: items)
          | None => None
          end
      end
  end.

(** A group that took no part in the match expands to the empty string. *)
Fixpoint expand (items : list titem) (caps : gmap nat string) : string :=
  match items with
  | [] => EmptyString
  | TLit c :: rest => String c (expand rest caps)
  | TGroup n :: rest =>
      match caps !! n with
      | Some text => text +:+ expand rest caps
      | None => expand rest caps
      end
  end.

(** *** [re.sub]: replace the matches from left to right; after an empty
    match the next one must advance. *)
Fixpoint sub_loop (fuel : nat) (r : regex) (items : list titem) (s : string)
    (must_advance : bool) : string :=
  match fuel with
  | O => s
  | S k =>
      match search r s must_advance with
      | None => s
      | Some (before, rest, caps) =>
          before +:+ expand items caps
            +:+ sub_loop k r items rest
                  (String.length before + String.length rest =? String.length s)%nat
      end
  end.

Definition sub (pattern repl s : string) : option string :=
  match compile pattern with
  | None => None
  | Some (r, groups) =>
      match parse_template (String.length repl) repl groups with
      | None => None
      | Some items => Some (sub_loop (2 * String.length s + 2) r items s false)
      end
  end.

End Re.

(** ** A fragment of [str.format]: literal text, the escapes [{{] and [}}],
    and the replacement fields [{name}], [{ext}], [{index}], [{counter}];
    an integer field takes a format specification [0], a width and [d]
    (as in [{counter:03d}]).

    [None] stands for the exception that [format] raises ([KeyError],
    [IndexError], [ValueError]), and also for a template outside the
    fragment. *)
Module Fmt.

Inductive value := Str (s : string) | Int (n : Z).

Definition field (fields : format_kwargs) (name : string) : option value :=
  if String.eqb name "name" then Some (Str (fk_name fields))
  else if String.eqb name "ext" then Some (Str (fk_ext fields))
  else if String.eqb name "index" then
    match fk_index fields with Some n => Some (Int n) | None => None end
  else if String.eqb name "counter" then
    match fk_counter fields with Some n => Some (Int n) | None => None end
  else None.

Fixpoint repeat_char (c : ascii) (n : nat) : string :=
  match n with
  | O => EmptyString
  | S k => String c (repeat_char c k)
  end.

Definition decimal (n : Z) : string :=
  DecimalString.NilZero.string_of_uint (N.to_uint (Z.to_N (Z.abs n))).

(** An integer under the specification [[0][width][d]]: right-aligned,
    and with [0] the padding goes between the sign and the digits. *)
Definition format_int (spec : string) (n : Z) : option string :=
  let zero := String.prefix "0" spec in
  let spec := if zero then String.substring 1 (String.length spec - 1) spec else spec in
  match Re.number spec 0 with
  | Some (width, type) =>
      if String.eqb type "" || String.eqb type "d" then
        let sign := if n <? 0 then "-" else "" in
        let digits := decimal n in
        let pad := (width - (String.length sign + String.length digits))%nat in
        Some (if zero then sign +:+ repeat_char "0" pad +:+ digits
              else repeat_char " " pad +:+ sign +:+ digits)
      else None
  | None => None
  end.

Definition format_value (spec : string) (v : value) : option string :=
  match v with
  | Str s => if String.eqb spec "" || String.eqb spec "s" then Some s else None
  | Int n => format_int spec n
  end.

(** The text up to the first [stop], and the text after it. *)
Fixpoint until (stop : ascii) (s : string) : option (string * string) :=
  match s with
  | EmptyString => None
  | String c rest =>
      if Ascii.eqb c stop then Some (EmptyString, rest)
      else match until stop rest with
           | Some (before, after) => Some (String c before, after)
           | None => None
           end
  end.

(** A replacement field without its braces: [name] or [name:spec]. *)
Definition replacement_field (body : string) (fields : format_kwargs)
  : option string :=
  let '(name, spec) :=
    match until ":" body with
    | Some (name, spec) => (name, spec)
    | None => (body, EmptyString)
    end in
  if contains "{" spec then None
  else match field fields name with
       | Some v => format_value spec v
       | None => None
       end.

Fixpoint format_loop (fuel : nat) (t : string) (fields : format_kwargs)
  : option string :=
  match fuel with
  | O => match t with EmptyString => Some EmptyString | _ => None end
  | S k =>
      match t with
      | EmptyString => Some EmptyString
      | String "{" (String "{" rest) =>
          match format_loop k rest fields with
          | Some out => Some (String "{" out)
          | None => None
          end
      | String "}" (String "}" rest) =>
          match format_loop k rest fields with
          | Some out => Some (String "}" out)
          | None => None
          end
      | String "}" _ => None
      | String "{" rest =>
          match until "}" rest with
          | Some (body, rest') =>
              match replacement_field body fields, format_loop k rest' fields with
              | Some text, Some out => Some (text +:+ out)
              | _, _ => None
              end
          | None => None
          end
      | String c rest =>
          match format_loop k rest fields with
          | Some out => Some (String c out)
          | None => None
          end
      end
  end.

Definition format (template : string) (fields : format_kwargs) : option string :=
  format_loop (String.length template) template fields.

End Fmt.

(** The platform in which [re.sub] and [str.format] are the two fragments
    and the operating system refuses no rename. *)
Definition model : Platform :=
  {| re_sub := Re.sub;
     str_format := Fmt.format;
     os_error := fun _ _ _ => false |}.

(** Directories used in the examples. *)
Definition dir_abc : gmap string node :=
  <["a.txt" := File 1]> (<["b.txt" := File 2]> (<["c.txt" := File 3]> ∅)).

Definition dir_clash : gmap string node :=
  <["a.txt" := File 1]> (<["x_a.txt" := File 2]> ∅).

Definition prefix_kwargs (prefix : string) (force : bool) : kwargs :=
  {| kw_prefix := Some prefix; kw_suffix := None; kw_old_text := None;
     kw_new_text := None; kw_pattern := None; kw_replacement := None;
     kw_force := Some force |}.

Definition pattern_kwargs (pattern : string) (force : bool) : kwargs :=
  {| kw_prefix := None; kw_suffix := None; kw_old_text := None;
     kw_new_text := None; kw_pattern := Some pattern; kw_replacement := None;
     kw_force := Some force |}.

(** ** github_stars.py: the name of the export file

    [main] of github_stars.py writes the results to [args.export], with
    [.json] appended unless the name already ends with it. *)
Module GithubStars.

(** [s.endswith(suffix)]: some tail of [s] is [suffix]. *)
Fixpoint endswith (s suffix : string) : bool :=
  String.eqb s suffix
  || match s with
     | EmptyString => false
     | String _ t => endswith t suffix
     end.

(** The path that [main] opens for writing:
<<
        export_path = args.export
        if not export_path.endswith('.json'):
            export_path += '.json'
>> *)
Definition export_path (export : string) : string :=
  let export_path := export in
  if negb (endswith export_path ".json") then export_path +:+ ".json"
  else export_path.

End GithubStars.

Definition dir_mixed : gmap string node :=
  <["a.txt" := File 1]> (<["docs" := Subdir]> ∅).

(** The extension in the words of the specification's glossary: "the
    trailing portion of a filename from (and including) the last [.] to the
    end; empty if no [.] is present".  It is compared below with the second
    component of [splitext], which is what the transforms use. *)
Definition glossary_extension (filename : string) : string :=
  let i := rfind "." filename in
  if 0 <=? i then slice_from i filename else "".

(** "Before each character and once at the end": [new] in front of every
    character of [s], on lists of characters. *)
Definition before_each (new : list ascii) (s : list ascii) : list ascii :=
  flat_map (fun c => new ++ [c]) s.

(** Every character of [s] satisfies [P]. *)
Fixpoint all_chars (P : ascii -> bool) (s : string) : bool :=
  match s with
  | EmptyString => true
  | String a t => P a && all_chars P t
  end.


(** The templates that [format] reads to their end as whole pieces: literal
    characters, the escapes [{{] and [}}], and replacement fields without a
    brace inside. *)
Inductive whole_pieces : string -> Prop :=
| pieces_end : whole_pieces ""
| pieces_literal c t :
    Ascii.eqb c "{" = false -> Ascii.eqb c "}" = false ->
    whole_pieces t -> whole_pieces (String c t)
| pieces_open t : whole_pieces t -> whole_pieces (String "{" (String "{" t))
| pieces_close t : whole_pieces t -> whole_pieces (String "}" (String "}" t))
| pieces_field body t :
    contains "{" body = false -> contains "}" body = false ->
    whole_pieces t -> whole_pieces (String "{" (body +:+ String "}" t)).

(** [old in s]: [old] occurs somewhere in [s]. *)
Fixpoint occurs (old s : string) : bool :=
  String.prefix old s
  || match s with
     | EmptyString => false
     | String _ t => occurs old t
     end.

(** A plan entry that renames a file to another name. *)
Definition no_noop (e : string * string) : Prop := e.1 <> e.2.

(** * Properties *)


(** ** Strings *)
Section StrFacts.
Implicit Types (s t u : string) (c a : ascii).

Lemma app_cons a s t : String a s +:+ t = String a (s +:+ t).
Proof. reflexivity. Qed.

Lemma app_nil_l s : "" +:+ s = s.
Proof. reflexivity. Qed.

Lemma app_nil_r s : s +:+ "" = s.
Proof. induction s as [|a s IH]; [done|]. by rewrite app_cons, IH. Qed.

Lemma app_assoc s t u : (s +:+ t) +:+ u = s +:+ t +:+ u.
Proof. induction s as [|a s IH]; [done|]. by rewrite !app_cons, IH. Qed.

Lemma length_app s t :
  String.length (s +:+ t) = (String.length s + String.length t)%nat.
Proof. induction s as [|a s IH]; [done|]. rewrite app_cons. simpl. by rewrite IH. Qed.

Lemma len_cons a s : len (String a s) = len s + 1.
Proof. unfold len. simpl. lia. Qed.

Lemma len_nonneg s : 0 <= len s.
Proof. unfold len. lia. Qed.

Lemma substring_0_0 s : String.substring 0 0 s = "".
Proof. by destruct s. Qed.

Lemma substring_all s : String.substring 0 (String.length s) s = s.
Proof. induction s as [|a s IH]; [done|]. simpl. by rewrite IH. Qed.

Lemma substring_split n s :
  String.substring 0 n s +:+ String.substring n (String.length s - n) s = s.
Proof.
  revert n. induction s as [|a s IH]; intros [|n]; simpl; try done.
  - by rewrite substring_all.
  - by rewrite app_cons, IH.
Qed.

Lemma substring_app_r s t n k :
  String.substring (String.length s + n) k (s +:+ t) = String.substring n k t.
Proof. induction s as [|a s IH]; [done|]. by rewrite app_cons. Qed.

Lemma slice_to_from i s : 0 <= i -> slice_to i s +:+ slice_from i s = s.
Proof.
  intros Hi. unfold slice_to, slice_from, slice, len.
  replace (Z.to_nat (i - 0)) with (Z.to_nat i) by lia.
  replace (Z.to_nat (Z.of_nat (String.length s) - i))
    with (String.length s - Z.to_nat i)%nat by lia.
  apply substring_split.
Qed.

Lemma slice_from_0 s : slice_from 0 s = s.
Proof.
  unfold slice_from, slice, len.
  replace (Z.to_nat (Z.of_nat (String.length s) - 0)) with (String.length s) by lia.
  apply substring_all.
Qed.

Lemma slice_from_cons r a s : 0 <= r -> slice_from (r + 1) (String a s) = slice_from r s.
Proof.
  intros Hr. unfold slice_from, slice. rewrite len_cons.
  replace (Z.to_nat (r + 1)) with (S (Z.to_nat r)) by lia. simpl.
  by replace (len s + 1 - (r + 1)) with (len s - r) by lia.
Qed.

Lemma slice_from_app i s t :
  0 <= i -> slice_from (len s + i) (s +:+ t) = slice_from i t.
Proof.
  intros Hi. unfold slice_from, slice, len. rewrite length_app.
  replace (Z.to_nat (Z.of_nat (String.length s) + i))
    with (String.length s + Z.to_nat i)%nat by lia.
  rewrite substring_app_r. f_equal. lia.
Qed.

Lemma rfind_bounds c s : -1 <= rfind c s < len s.
Proof.
  induction s as [|a s IH]; [unfold len; simpl; lia|].
  rewrite len_cons. simpl.
  destruct (0 <=? rfind c s) eqn:E; [lia|].
  destruct (Ascii.eqb a c); lia.
Qed.

Lemma rfind_contains c s : 0 <= rfind c s <-> contains c s = true.
Proof.
  induction s as [|a s IH]; simpl; [split; [lia|done]|].
  pose proof (rfind_bounds c s).
  destruct (0 <=? rfind c s) eqn:E.
  - apply Z.leb_le in E. split; [|lia]. intros _.
    apply orb_true_iff. right. by apply IH.
  - apply Z.leb_gt in E.
    destruct (Ascii.eqb a c); simpl; [split; [done|lia]|].
    rewrite <- IH. lia.
Qed.

Lemma rfind_absent c s : contains c s = false <-> rfind c s = -1.
Proof.
  pose proof (rfind_bounds c s). pose proof (rfind_contains c s).
  destruct (contains c s); split; intros; try done; lia.
Qed.

Lemma contains_app c s t : contains c (s +:+ t) = contains c s || contains c t.
Proof.
  induction s as [|a s IH]; [done|]. rewrite app_cons. simpl.
  rewrite IH. by rewrite orb_assoc.
Qed.

Lemma rfind_app c s t :
  rfind c (s +:+ t) = if 0 <=? rfind c t then len s + rfind c t else rfind c s.
Proof.
  induction s as [|a s IH].
  - rewrite app_nil_l. unfold len. simpl. pose proof (rfind_bounds c t).
    destruct (0 <=? rfind c t) eqn:E; [lia|]. apply Z.leb_gt in E. lia.
  - rewrite app_cons. simpl. rewrite IH, len_cons.
    pose proof (len_nonneg s).
    destruct (0 <=? rfind c t) eqn:E.
    + apply Z.leb_le in E.
      destruct (0 <=? len s + rfind c t) eqn:E'; [lia|].
      apply Z.leb_gt in E'. lia.
    + done.
Qed.

(** The last occurrence is the only one in the slice that starts at it. *)
Lemma rfind_slice_from c s :
  0 <= rfind c s -> rfind c (slice_from (rfind c s) s) = 0.
Proof.
  induction s as [|a s IH]; simpl; [lia|].
  pose proof (rfind_bounds c s).
  destruct (0 <=? rfind c s) eqn:E.
  - apply Z.leb_le in E. intros _. rewrite slice_from_cons by done. by apply IH.
  - apply Z.leb_gt in E. destruct (Ascii.eqb a c) eqn:Ea; [|lia].
    intros _. rewrite slice_from_0. simpl.
    destruct (0 <=? rfind c s) eqn:E'; [apply Z.leb_le in E'; lia|].
    by rewrite Ea.
Qed.

End StrFacts.

(** ** The stem/extension split *)
Section SplitextFacts.
Implicit Types (p f v s t : string).

(** The fuel that [splitext] gives the loop is enough: more changes
    nothing. *)
Lemma skip_leading_dots_fuel p d i fuel :
  (Z.to_nat (d - i) <= fuel)%nat ->
  skip_leading_dots fuel p d i = skip_leading_dots (Z.to_nat (d - i)) p d i.
Proof.
  revert i. induction fuel as [|fuel IH]; intros i Hfuel.
  - by replace (Z.to_nat (d - i)) with O by lia.
  - destruct (i <? d) eqn:E.
    + apply Z.ltb_lt in E.
      replace (Z.to_nat (d - i)) with (S (Z.to_nat (d - (i + 1)))) by lia.
      simpl. apply Z.ltb_lt in E. rewrite E.
      destruct (negb _); [done|]. apply IH. apply Z.ltb_lt in E. lia.
    + simpl. rewrite E. apply Z.ltb_ge in E.
      by replace (Z.to_nat (d - i)) with O by lia.
Qed.

Lemma splitext_cases p :
  splitext p = (p, "")
  \/ (0 <= rfind "." p
      /\ splitext p = (slice_to (rfind "." p) p, slice_from (rfind "." p) p)).
Proof.
  unfold splitext, extsep.
  destruct (_ && _) eqn:E.
  - right. apply andb_true_iff in E as [E _]. apply Z.ltb_lt in E.
    pose proof (rfind_bounds sep p). split; [lia|done].
  - left. unfold slice_to, slice. simpl. by rewrite substring_0_0.
Qed.

(** Joining the two components gives the name back. *)
Lemma splitext_join p : (splitext p).1 +:+ (splitext p).2 = p.
Proof.
  destruct (splitext_cases p) as [-> | [Hi ->]]; simpl.
  - apply app_nil_r.
  - by apply slice_to_from.
Qed.

Lemma add_prefix_app f v : add_prefix f v = v +:+ f.
Proof.
  unfold add_prefix. pose proof (splitext_join f) as J.
  destruct (splitext f) as [name ext]. simpl in J. by rewrite J.
Qed.

Lemma add_suffix_split f v :
  add_suffix f v = ((splitext f).1 +:+ v) +:+ (splitext f).2.
Proof. unfold add_suffix. destruct (splitext f) as [name ext]. simpl. by rewrite app_assoc. Qed.

Lemma glossary_extension_nodot s : contains "." s = false -> glossary_extension s = "".
Proof.
  intros E%rfind_absent. unfold glossary_extension. by rewrite E.
Qed.

Lemma glossary_extension_app_r s t :
  contains "." t = true -> glossary_extension (s +:+ t) = glossary_extension t.
Proof.
  intros E%rfind_contains. unfold glossary_extension.
  rewrite rfind_app. pose proof (len_nonneg s).
  destruct (0 <=? rfind "." t) eqn:E1; [|apply Z.leb_gt in E1; lia].
  destruct (0 <=? len s + rfind "." t) eqn:E2; [|apply Z.leb_gt in E2; lia].
  by apply slice_from_app.
Qed.

(** A non-empty second component of [splitext] is the glossary's
    extension; it holds the last dot of the name and is its own extension. *)
Lemma splitext_ext p :
  (splitext p).2 = ""
  \/ ((splitext p).2 = glossary_extension p
      /\ contains "." (splitext p).2 = true
      /\ glossary_extension (splitext p).2 = (splitext p).2).
Proof.
  destruct (splitext_cases p) as [-> | [Hi ->]]; [by left|right]. simpl.
  pose proof (rfind_slice_from "." p Hi) as H0.
  unfold glossary_extension at 1.
  destruct (0 <=? rfind "." p) eqn:E; [|apply Z.leb_gt in E; lia].
  split; [done|]. split.
  - apply rfind_contains. lia.
  - unfold glossary_extension. rewrite H0. simpl. apply slice_from_0.
Qed.

Lemma splitext_nodot p : contains "." p = false -> splitext p = (p, "").
Proof.
  intros E. destruct (splitext_cases p) as [-> | [Hi _]]; [done|].
  apply rfind_contains in Hi. congruence.
Qed.

Lemma splitext_ext_contains p : (splitext p).2 <> "" -> contains "." p = true.
Proof.
  intros Hne. destruct (contains "." p) eqn:E; [done|].
  rewrite (splitext_nodot p E) in Hne. done.
Qed.

End SplitextFacts.

(** The extension of the glossary is not empty when the name has a dot. *)
Lemma glossary_extension_dot (s : string) :
  contains "." s = true -> glossary_extension s <> "".
Proof.
  intros Hdot%rfind_contains. unfold glossary_extension.
  destruct (0 <=? rfind "." s) eqn:E; [|apply Z.leb_gt in E; lia].
  intros Hempty. pose proof (rfind_slice_from "." s Hdot) as H0.
  rewrite Hempty in H0. simpl in H0. lia.
Qed.

(** C3, as the code has it.  With the extension the part from the last dot
    to the end (empty without a dot): the prefix transform leaves the
    extension unchanged exactly when the filename has a dot (a dotfile
    included) or the prefix has none; the suffix transform leaves it
    unchanged when the [splitext] extension of the filename is not empty,
    when neither the filename nor the suffix has a dot, and when the suffix
    is empty. *)
Theorem prefix_suffix_keep_extension (f v : string) :
  (glossary_extension (add_prefix f v) = glossary_extension f
   <-> contains "." f = true \/ contains "." v = false)
  /\ ((splitext f).2 <> "" \/ (contains "." f = false /\ contains "." v = false) \/ v = "" ->
      glossary_extension (add_suffix f v) = glossary_extension f).
Proof.
  split.
  - rewrite add_prefix_app. split.
    + intros Heq. destruct (contains "." f) eqn:Hf; [by left|right].
      destruct (contains "." v) eqn:Hv; [exfalso|done].
      rewrite (glossary_extension_nodot f Hf) in Heq.
      apply (glossary_extension_dot (v +:+ f)); [|done].
      by rewrite contains_app, Hv.
    + intros [Hf | Hv].
      * by apply glossary_extension_app_r.
      * destruct (contains "." f) eqn:Hf; [by apply glossary_extension_app_r|].
        rewrite (glossary_extension_nodot f Hf).
        apply glossary_extension_nodot. by rewrite contains_app, Hv, Hf.
  - intros [Hext | [[Hf Hv] | ->]].
    + rewrite add_suffix_split.
      destruct (splitext_ext f) as [E | (E1 & E2 & E3)]; [done|].
      rewrite glossary_extension_app_r by done.
      by rewrite E3.
    + rewrite add_suffix_split, (splitext_nodot f Hf). simpl.
      rewrite app_nil_r, (glossary_extension_nodot f Hf).
      apply glossary_extension_nodot. rewrite contains_app, Hf, Hv. done.
    + by rewrite add_suffix_split, app_nil_r, splitext_join.
Qed.

Lemma prefix_suffix_keep_extension_witness :
  contains "." ".bashrc" = true
  /\ glossary_extension (add_prefix ".bashrc" "v1.") = glossary_extension ".bashrc"
  /\ (splitext "a.txt").2 <> ""
  /\ glossary_extension (add_suffix "a.txt" "_v1.2") = glossary_extension "a.txt".
Proof.
  assert (Hdot : contains "." ".bashrc" = true) by reflexivity.
  assert (Hext : (splitext "a.txt").2 <> "") by (vm_compute; discriminate).
  split; [exact Hdot|]. split.
  - exact (proj2 (proj1 (prefix_suffix_keep_extension ".bashrc" "v1.")) (or_introl Hdot)).
  - split; [exact Hext|].
    exact (proj2 (prefix_suffix_keep_extension "a.txt" "_v1.2") (or_introl Hext)).
Defined.

(** C3 as stated fails: a prefix with a dot gives a name without a dot an
    extension, and a suffix changes the extension of a name whose only dot
    leads it. *)
Lemma prefix_changes_extension :
  glossary_extension "README" = ""
  /\ add_prefix "README" "v1." = "v1.README"
  /\ glossary_extension (add_prefix "README" "v1.") = ".README"
  /\ glossary_extension ".bashrc" = ".bashrc"
  /\ glossary_extension (add_suffix ".bashrc" "_old") = ".bashrc_old".
Proof. vm_compute. repeat split. Qed.

(** C10.  A filename that begins with a dot and has no other dot is all
    stem for every function of the script that splits a name: the split
    that they all call gives the whole name and an empty extension (the
    rule is that of [os.path.splitext], which is Python's and is modelled
    above), so [add_prefix] puts the prefix before the leading dot,
    [add_suffix] puts the suffix after the whole name, [replace_text] and
    [regex_replace] work on the whole name, and [rename_with_pattern] and
    pattern mode give [format] the whole name as [name] and an empty
    [ext]. *)
Theorem dotfile_is_all_stem `{Platform} (rest v old new : string) :
  contains "." rest = false ->
  splitext (String "." rest) = (String "." rest, "")
  /\ add_prefix (String "." rest) v = v +:+ String "." rest
  /\ add_suffix (String "." rest) v = String "." rest +:+ v
  /\ replace_text (String "." rest) old new = replace old new (String "." rest)
  /\ regex_replace (String "." rest) old new = re_sub old new (String "." rest)
  /\ rename_with_pattern (String "." rest) v
     = str_format v {| fk_name := String "." rest; fk_ext := "";
                       fk_index := None; fk_counter := None |}
  /\ (forall index counter,
        pattern_fields (String "." rest) index counter
        = {| fk_name := String "." rest; fk_ext := "";
             fk_index := Some index; fk_counter := Some counter |}).
Proof.
  intros Hrest.
  assert (Hsplit : splitext (String "." rest) = (String "." rest, "")).
  { apply rfind_absent in Hrest.
    unfold splitext, extsep, sep. simpl rfind. rewrite Hrest. simpl.
    pose proof (rfind_bounds "/" rest) as Hb.
    destruct (0 <=? rfind "/" rest) eqn:E.
    - apply Z.leb_le in E.
      destruct (rfind "/" rest + 1 <? 0) eqn:E'; [apply Z.ltb_lt in E'; lia|].
      simpl. unfold slice_to, slice. simpl. done.
    - simpl. unfold slice_to, slice. simpl. done. }
  split; [done|]. split; [apply add_prefix_app|]. split.
  { rewrite add_suffix_split, Hsplit. simpl. by rewrite app_nil_r. }
  split; [unfold replace_text; rewrite Hsplit; by rewrite app_nil_r|].
  split.
  { unfold regex_replace. rewrite Hsplit.
    destruct (re_sub old new (String "." rest)); [|done]. by rewrite app_nil_r. }
  split; [unfold rename_with_pattern; by rewrite Hsplit|].
  intros index counter. unfold pattern_fields. by rewrite Hsplit.
Qed.

Lemma dotfile_is_all_stem_witness :
  contains "." "bashrc" = false
  /\ splitext ".bashrc" = (".bashrc", "")
  /\ add_prefix ".bashrc" "old" = "old.bashrc"
  /\ add_suffix ".bashrc" "old" = ".bashrcold"
  /\ replace_text ".bashrc" "sh" "SH" = ".baSHrc"
  /\ @regex_replace model ".bashrc" "sh" "SH" = Some ".baSHrc".
Proof.
  destruct (@dotfile_is_all_stem model "bashrc" "old" "sh" "SH" eq_refl)
    as (Hsplit & Hprefix & Hsuffix & Hreplace & Hregex & _).
  split; [reflexivity|]. split; [exact Hsplit|]. split; [exact Hprefix|].
  split; [exact Hsuffix|]. split; [exact Hreplace|].
  rewrite Hregex. vm_compute. reflexivity.
Defined.

(** ** Replacing the empty string *)
Section ReplaceFacts.

Lemma chars_app (s t : string) :
  list_ascii_of_string (s +:+ t) = list_ascii_of_string s ++ list_ascii_of_string t.
Proof. induction s as [|a s IH]; [done|]. rewrite app_cons. simpl. by rewrite IH. Qed.

Lemma replace_interleave_chars (new s : string) :
  list_ascii_of_string (replace_interleave new s)
  = before_each (list_ascii_of_string new) (list_ascii_of_string s)
    ++ list_ascii_of_string new.
Proof.
  induction s as [|a s IH]; [done|].
  simpl. rewrite chars_app. simpl. rewrite IH.
  unfold before_each. by rewrite <- !List.app_assoc.
Qed.

Lemma before_each_length (new s : list ascii) :
  length (before_each new s) = (length s * (length new + 1))%nat.
Proof.
  induction s as [|a s IH]; [done|].
  unfold before_each in *. simpl. rewrite !List.length_app, IH. simpl. lia.
Qed.

End ReplaceFacts.

(** C8.  Replace mode takes an empty [old_text], given or missing,
    without a check: the body of the planning loop hands it to
    [replace_text], and the new name is the stem with [new_text] before each
    of its characters and once more at its end, followed by the extension
    as it was (the rule for the empty text is that of [str.replace], which
    is Python's and is modelled above).  With a [new_text] that is not
    empty the new name is therefore never the old one. *)
Theorem replace_empty_old_text `{Platform} (filename new_text : string) :
  list_ascii_of_string (replace_text filename "" new_text)
  = before_each (list_ascii_of_string new_text)
      (list_ascii_of_string (splitext filename).1)
    ++ list_ascii_of_string new_text
    ++ list_ascii_of_string (splitext filename).2
  /\ (new_text <> "" -> replace_text filename "" new_text <> filename)
  /\ (forall kw index counter,
        get (kw_old_text kw) "" = "" -> get (kw_new_text kw) "" = new_text ->
        loop_body "replace" kw index filename counter
        = NewName (replace_text filename "" new_text) counter).
Proof.
  assert (Hchars : list_ascii_of_string (replace_text filename "" new_text)
                   = before_each (list_ascii_of_string new_text)
                       (list_ascii_of_string (splitext filename).1)
                     ++ list_ascii_of_string new_text
                     ++ list_ascii_of_string (splitext filename).2).
  { unfold replace_text. destruct (splitext filename) as [name ext]. simpl.
    rewrite chars_app, replace_interleave_chars. by rewrite <- List.app_assoc. }
  split; [exact Hchars|]. split.
  - intros Hnew Hsame.
    apply (f_equal (@length ascii)) in Hchars.
    rewrite Hsame in Hchars at 1.
    rewrite <- (splitext_join filename) in Hchars at 1.
    rewrite chars_app, !List.length_app, before_each_length in Hchars.
    destruct new_text as [|a new_text]; [done|]. simpl in Hchars. lia.
  - intros kw index counter Hold Hnew. unfold loop_body. simpl.
    by rewrite Hold, Hnew.
Qed.

Lemma replace_empty_old_text_witness :
  replace_text "abc.txt" "" "-" = "-a-b-c-.txt"
  /\ replace_text "abc.txt" "" "-" <> "abc.txt"
  /\ @loop_body model "replace"
       {| kw_prefix := None; kw_suffix := None; kw_old_text := None;
          kw_new_text := Some "-"; kw_pattern := None; kw_replacement := None;
          kw_force := None |} 1 "abc.txt" 1
     = NewName "-a-b-c-.txt" 1.
Proof.
  destruct (@replace_empty_old_text model "abc.txt" "-") as (_ & Hdiffers & Hbody).
  split; [reflexivity|]. split.
  - apply Hdiffers. discriminate.
  - exact (Hbody {| kw_prefix := None; kw_suffix := None; kw_old_text := None;
                    kw_new_text := Some "-"; kw_pattern := None;
                    kw_replacement := None; kw_force := None |} 1 1 eq_refl eq_refl).
Defined.

(** ** The extension that [splitext] itself returns *)
Section SplitextOfPrefix.
Implicit Types (p f v : string).

(** The loop over the leading dots returns the split exactly when some
    character between the separator and the last dot is not a dot. *)
Lemma skip_leading_dots_true fuel p d i :
  skip_leading_dots fuel p d i = true
  <-> exists j, i <= j < d /\ j < i + Z.of_nat fuel /\ slice j (j + 1) p <> ".".
Proof.
  revert i. induction fuel as [|fuel IH]; intros i; simpl.
  - split; [done|]. intros (j & ? & ? & _). lia.
  - destruct (i <? d) eqn:E.
    + apply Z.ltb_lt in E.
      destruct (String.eqb_spec (slice i (i + 1) p) (String extsep "")) as [Heq|Hne]; simpl.
      * rewrite IH. split.
        -- intros (j & ? & ? & ?). exists j. repeat split; try done; lia.
        -- intros (j & ? & ? & Hj). exists j.
           destruct (Z.eq_dec j i) as [->|]; [done|]. repeat split; try done; lia.
      * split; [|done]. intros _. exists i. repeat split; try done; lia.
    + apply Z.ltb_ge in E. split; [done|]. intros (j & ? & ? & _). lia.
Qed.

Lemma slice_app_r j p v :
  0 <= j -> slice (len v + j) (len v + j + 1) (v +:+ p) = slice j (j + 1) p.
Proof.
  intros Hj. unfold slice, len.
  replace (Z.to_nat (Z.of_nat (String.length v) + j))
    with (String.length v + Z.to_nat j)%nat by lia.
  rewrite substring_app_r. f_equal. lia.
Qed.

(** Prefix mode keeps a non-empty extension also in the sense of
    [splitext]. *)
Lemma prefix_keeps_splitext_extension f v :
  (splitext f).2 <> "" -> (splitext (add_prefix f v)).2 = (splitext f).2.
Proof.
  intros Hext. rewrite add_prefix_app.
  unfold splitext in *. unfold extsep in *.
  destruct (_ && _) eqn:E in Hext; [|simpl in Hext; unfold slice_to, slice in Hext;
                                     simpl in Hext; by rewrite substring_0_0 in Hext].
  rewrite E. apply andb_true_iff in E as [Hlt Hskip]. apply Z.ltb_lt in Hlt.
  apply skip_leading_dots_true in Hskip as (j & Hj & _ & Hchar).
  pose proof (rfind_bounds sep f) as Hsf. pose proof (rfind_bounds sep v) as Hsv.
  pose proof (len_nonneg v) as Hlv.
  assert (Hdot : rfind "." (v +:+ f) = len v + rfind "." f).
  { rewrite rfind_app. destruct (0 <=? rfind "." f) eqn:E'; [done|].
    apply Z.leb_gt in E'. lia. }
  assert (Hsep : rfind sep (v +:+ f) < len v + rfind sep f + 1).
  { rewrite rfind_app. destruct (0 <=? rfind sep f) eqn:E'; [lia|].
    apply Z.leb_gt in E'. lia. }
  pose proof (rfind_bounds sep (v +:+ f)) as Hsvf.
  assert (Hgo : (rfind sep (v +:+ f) <? rfind "." (v +:+ f))
                && skip_leading_dots
                     (Z.to_nat (rfind "." (v +:+ f) - (rfind sep (v +:+ f) + 1)))
                     (v +:+ f) (rfind "." (v +:+ f)) (rfind sep (v +:+ f) + 1) = true).
  { apply andb_true_iff. split; [apply Z.ltb_lt; lia|].
    apply skip_leading_dots_true. exists (len v + j).
    repeat split; try lia. rewrite slice_app_r by lia. done. }
  rewrite Hgo. simpl. rewrite Hdot. apply slice_from_app. lia.
Qed.

End SplitextOfPrefix.

(** ** The planner *)
Section PlannerFacts.
Context `{Platform}.
Implicit Types (items : list (Z * string)) (changes plan : list (string * string)).

Lemma plan_loop_no_noop mode kw items counter changes c plan :
  plan_loop mode kw items counter changes = LoopDone c plan ->
  Forall no_noop changes -> Forall no_noop plan.
Proof.
  revert counter changes.
  induction items as [|[index filename] items IH]; intros counter changes; simpl.
  - intros [= _ <-]. done.
  - destruct (loop_body mode kw index filename counter) as [new_name c'| |e]; try done.
    destruct (String.eqb new_name filename) eqn:E; intros Hloop Hch.
    + by eapply IH.
    + eapply IH; [done|]. apply Forall_app. split; [done|].
      repeat constructor. unfold no_noop. simpl.
      apply String.eqb_neq in E. congruence.
Qed.

Lemma plan_loop_app mode kw pre post counter changes :
  plan_loop mode kw (pre ++ post) counter changes
  = match plan_loop mode kw pre counter changes with
    | LoopDone c changes' => plan_loop mode kw post c changes'
    | other => other
    end.
Proof.
  revert counter changes.
  induction pre as [|[index filename] pre IH]; intros counter changes; simpl; [done|].
  destruct (loop_body mode kw index filename counter) as [new_name c'| |e]; try done.
  destruct (String.eqb new_name filename); apply IH.
Qed.

(** In the three modes that call no parameter the loop always ends with a
    plan. *)
Lemma plan_loop_total mode kw items counter changes :
  mode = "prefix" \/ mode = "suffix" \/ mode = "replace" ->
  exists plan, plan_loop mode kw items counter changes = LoopDone counter plan.
Proof.
  intros Hmode. revert changes.
  induction items as [|[index filename] items IH]; intros changes; simpl; [by eexists|].
  assert (exists n, loop_body mode kw index filename counter = NewName n counter) as [n ->].
  { unfold loop_body. destruct Hmode as [-> | [-> | ->]]; simpl; by eexists. }
  destruct (String.eqb n filename); apply IH.
Qed.

Lemma pattern_loop_counter kw items counter changes c plan :
  plan_loop "pattern" kw items counter changes = LoopDone c plan ->
  c = counter + Z.of_nat (length items).
Proof.
  revert counter changes.
  induction items as [|[index filename] items IH]; intros counter changes; simpl.
  - intros [= <- _]. lia.
  - unfold loop_body. simpl.
    destruct (str_format _ _) as [new_name|]; [|done].
    destruct (String.eqb new_name filename); intros ->%IH; lia.
Qed.

Lemma enumerate_index files start pre index filename post :
  enumerate files start = pre ++ (index, filename) :: post ->
  index = start + Z.of_nat (length pre).
Proof.
  revert start pre.
  induction files as [|f files IH]; intros start [|p pre]; simpl; try done.
  - intros [= <- _ _]. lia.
  - intros [= _ Hrest]. apply IH in Hrest. lia.
Qed.

Lemma enumerate_snd files start : (enumerate files start).*2 = files.
Proof. revert start. induction files as [|f files IH]; intros; simpl; [done|]. by rewrite IH. Qed.

(** The sources of a plan are files of the listing, in the listing's
    order. *)
Lemma plan_loop_sources mode kw items counter changes c plan :
  plan_loop mode kw items counter changes = LoopDone c plan ->
  exists added, plan = changes ++ added /\ added.*1 `sublist_of` items.*2.
Proof.
  revert counter changes.
  induction items as [|[index filename] items IH]; intros counter changes; simpl.
  - intros [= _ <-]. exists []. by rewrite List.app_nil_r.
  - destruct (loop_body mode kw index filename counter) as [new_name c'| |e]; try done.
    destruct (String.eqb new_name filename).
    + intros (added & -> & Hsub)%IH. exists added. split; [done|].
      by apply sublist_cons.
    + intros (added & -> & Hsub)%IH. exists ((filename, new_name) :: added).
      split; [by rewrite <- List.app_assoc|]. simpl. by apply sublist_skip.
Qed.

Lemma plan_sources_NoDup mode kw files c plan :
  plan_loop mode kw (enumerate files 1) 1 [] = LoopDone c plan ->
  NoDup files ->
  NoDup plan.*1 /\ forall old_name, old_name ∈ plan.*1 -> old_name ∈ files.
Proof.
  intros (added & -> & Hsub)%plan_loop_sources Hnodup.
  rewrite enumerate_snd in Hsub. simpl. split.
  - by eapply sublist_NoDup.
  - intros old_name Hin. by eapply elem_of_sublist.
Qed.

Lemma enumerate_length files start : length (enumerate files start) = length files.
Proof. revert start. induction files as [|f files IH]; intros; simpl; [done|]. by rewrite IH. Qed.

End PlannerFacts.

(** C6.  Whatever the listing and the mode, a plan that the planning loop
    ends with has no entry whose target name is its original name. *)
Theorem plan_has_no_noop `{Platform} (mode : string) (kw : kwargs)
    (files : list string) (c : Z) (plan : list (string * string)) :
  plan_loop mode kw (enumerate files 1) 1 [] = LoopDone c plan ->
  Forall (fun e => e.1 <> e.2) plan.
Proof. intros Hloop. by apply (plan_loop_no_noop _ _ _ _ _ _ _ Hloop). Qed.

Lemma plan_has_no_noop_witness :
  @plan_loop model "suffix" (prefix_kwargs "" true)
    (enumerate ["a.txt"; "b.txt"] 1) 1 [] = LoopDone 1 []
  /\ @plan_loop model "prefix" (prefix_kwargs "x_" true)
       (enumerate ["a.txt"; "b.txt"] 1) 1 []
     = LoopDone 1 [("a.txt", "x_a.txt"); ("b.txt", "x_b.txt")]
  /\ Forall (fun e : string * string => e.1 <> e.2)
       [("a.txt", "x_a.txt"); ("b.txt", "x_b.txt")].
Proof.
  split; [reflexivity|]. split; [reflexivity|].
  exact (@plan_has_no_noop model "prefix" (prefix_kwargs "x_" true)
           ["a.txt"; "b.txt"] 1 _ eq_refl).
Defined.

(** C7.  In pattern mode the loop reaches the file at every position of
    the listing with its counter equal to the file's index, which is the
    1-based position; the call of [format] that it makes for the file is
    given that one value both as [index] and as [counter], and the run of
    the loop is what that call decides. *)
Theorem pattern_counter_is_index `{Platform} (kw : kwargs) (files : list string)
    (pre post : list (Z * string)) (index : Z) (filename : string)
    (c : Z) (changes : list (string * string)) :
  enumerate files 1 = pre ++ (index, filename) :: post ->
  plan_loop "pattern" kw pre 1 [] = LoopDone c changes ->
  c = index
  /\ index = 1 + Z.of_nat (length pre)
  /\ fk_counter (pattern_fields filename index c)
     = fk_index (pattern_fields filename index c)
  /\ loop_body "pattern" kw index filename c
     = match str_format (get (kw_pattern kw) "{name}{ext}")
               {| fk_name := (splitext filename).1; fk_ext := (splitext filename).2;
                  fk_index := Some index; fk_counter := Some index |} with
       | Some new_name => NewName new_name (index + 1)
       | None => BodyRaised FormatError
       end
  /\ plan_loop "pattern" kw (enumerate files 1) 1 []
     = match str_format (get (kw_pattern kw) "{name}{ext}")
               {| fk_name := (splitext filename).1; fk_ext := (splitext filename).2;
                  fk_index := Some index; fk_counter := Some index |} with
       | Some new_name =>
           if String.eqb new_name filename
           then plan_loop "pattern" kw post (index + 1) changes
           else plan_loop "pattern" kw post (index + 1)
                  (changes ++ [(filename, new_name)])
       | None => LoopRaised FormatError
       end.
Proof.
  intros Henum Hpre.
  pose proof (enumerate_index _ _ _ _ _ _ Henum) as Hi.
  pose proof (pattern_loop_counter _ _ _ _ _ _ Hpre) as Hc.
  assert (c = index) as -> by lia.
  assert (Hbody : loop_body "pattern" kw index filename index
                  = match str_format (get (kw_pattern kw) "{name}{ext}")
                            {| fk_name := (splitext filename).1;
                               fk_ext := (splitext filename).2;
                               fk_index := Some index; fk_counter := Some index |} with
                    | Some new_name => NewName new_name (index + 1)
                    | None => BodyRaised FormatError
                    end) by reflexivity.
  split; [done|]. split; [done|]. split; [done|]. split; [exact Hbody|].
  rewrite Henum, plan_loop_app, Hpre. cbn [plan_loop]. rewrite Hbody.
  by destruct (str_format _ _).
Qed.

Lemma pattern_counter_is_index_witness :
  enumerate ["a.txt"; "b.txt"] 1 = [(1, "a.txt")] ++ (2, "b.txt") :: []
  /\ @plan_loop model "pattern" (pattern_kwargs "f{index}_{counter:03d}{ext}" true)
       [(1, "a.txt")] 1 [] = LoopDone 2 [("a.txt", "f1_001.txt")]
  /\ @loop_body model "pattern" (pattern_kwargs "f{index}_{counter:03d}{ext}" true)
       2 "b.txt" 2 = NewName "f2_002.txt" 3
  /\ @plan_loop model "pattern" (pattern_kwargs "f{index}_{counter:03d}{ext}" true)
       (enumerate ["a.txt"; "b.txt"] 1) 1 []
     = LoopDone 3 [("a.txt", "f1_001.txt"); ("b.txt", "f2_002.txt")].
Proof.
  assert (Hpre : @plan_loop model "pattern"
                   (pattern_kwargs "f{index}_{counter:03d}{ext}" true)
                   [(1, "a.txt")] 1 [] = LoopDone 2 [("a.txt", "f1_001.txt")])
    by (vm_compute; reflexivity).
  destruct (@pattern_counter_is_index model
              (pattern_kwargs "f{index}_{counter:03d}{ext}" true) ["a.txt"; "b.txt"]
              [(1, "a.txt")] [] 2 "b.txt" 2 [("a.txt", "f1_001.txt")] eq_refl Hpre)
    as (_ & _ & _ & Hbody & Hrun).
  split; [reflexivity|]. split; [exact Hpre|]. split.
  - rewrite Hbody. vm_compute. reflexivity.
  - rewrite Hrun. vm_compute. reflexivity.
Defined.

(** ** The executor *)
Section ExecutorFacts.
Context `{Platform}.
Implicit Types (changes pre post : list (string * string)) (st : applied).

Lemma apply_loop_app pre post st :
  apply_loop (pre ++ post) st = apply_loop post (apply_loop pre st).
Proof.
  revert st. induction pre as [|[old_name new_name] pre IH]; intros st; simpl; [done|].
  destruct (path_exists _ _); [apply IH|].
  destruct (os_rename _ _ _); apply IH.
Qed.

Lemma path_exists_true d name : path_exists d name = true <-> is_Some (d !! name).
Proof. unfold path_exists. apply bool_decide_eq_true. Qed.

Lemma path_exists_false d name : path_exists d name = false <-> d !! name = None.
Proof.
  unfold path_exists. rewrite bool_decide_eq_false. symmetry. apply eq_None_not_Some.
Qed.

(** A rename that succeeds moves one entry to a free name and keeps the
    others. *)
Lemma os_rename_other d d' old_name new_name k x :
  os_rename d old_name new_name = Some d' ->
  d !! new_name = None -> k <> old_name ->
  d !! k = Some x -> d' !! k = Some x.
Proof.
  unfold os_rename. destruct (os_error _ _ _); [done|].
  destruct (d !! old_name) as [y|] eqn:Hold; [|done].
  intros [= <-] Hnew Hk Hx.
  assert (k <> new_name) by congruence.
  by rewrite lookup_insert_ne, lookup_delete_ne.
Qed.

(** An entry that is the source of no change of the plan is still there,
    and the same, after the plan has been applied. *)
Lemma apply_loop_keeps changes st k x :
  ap_dir st !! k = Some x -> k ∉ changes.*1 ->
  ap_dir (apply_loop changes st) !! k = Some x.
Proof.
  revert st. induction changes as [|[old_name new_name] changes IH]; intros st; simpl; [done|].
  intros Hx Hk. apply not_elem_of_cons in Hk as [Hne Hk].
  destruct (path_exists (ap_dir st) new_name) eqn:Hex; [by apply IH|].
  destruct (os_rename (ap_dir st) old_name new_name) as [d'|] eqn:Hren; [|by apply IH].
  apply IH; [|done]. simpl.
  apply path_exists_false in Hex. by eapply os_rename_other.
Qed.

(** An entry whose target exists when the executor reaches it: one more
    error, the same directory, and the source is kept to the end. *)
Lemma apply_loop_target_exists pre post old_name new_name st x :
  NoDup (pre ++ (old_name, new_name) :: post).*1 ->
  ap_dir st !! old_name = Some x ->
  path_exists (ap_dir (apply_loop pre st)) new_name = true ->
  apply_loop (pre ++ (old_name, new_name) :: post) st
  = apply_loop post
      (record_error (apply_loop pre st) (MsgErrorTargetExists old_name new_name))
  /\ ap_dir (apply_loop post
               (record_error (apply_loop pre st)
                  (MsgErrorTargetExists old_name new_name))) !! old_name = Some x.
Proof.
  intros Hnodup Hold Hex.
  rewrite fmap_app, fmap_cons in Hnodup. simpl in Hnodup.
  apply NoDup_app in Hnodup as (_ & Hpre & [Hpost _]%NoDup_cons).
  assert (old_name ∉ pre.*1) as Hnpre.
  { intros Hin. apply (Hpre _ Hin). by left. }
  split.
  - rewrite apply_loop_app. simpl. by rewrite Hex.
  - apply apply_loop_keeps; [|done]. simpl. by apply apply_loop_keeps.
Qed.

Lemma apply_loop_error_mono changes st :
  ap_error st <= ap_error (apply_loop changes st).
Proof.
  revert st. induction changes as [|[old_name new_name] changes IH]; intros st; simpl; [lia|].
  destruct (path_exists _ _).
  - etrans; [|apply IH]. simpl. lia.
  - destruct (os_rename _ _ _); (etrans; [|apply IH]); simpl; lia.
Qed.

(** The executor prints no preview. *)
Lemma apply_loop_preview changes st plan :
  MsgPreview plan ∈ ap_stdout (apply_loop changes st) -> MsgPreview plan ∈ ap_stdout st.
Proof.
  revert st. induction changes as [|[old_name new_name] changes IH]; intros st; simpl; [done|].
  destruct (path_exists _ _).
  - intros Hin%IH. simpl in Hin. apply elem_of_app in Hin as [|Hin]; [done|].
    by apply list_elem_of_singleton in Hin.
  - destruct (os_rename _ _ _).
    + intros Hin%IH. done.
    + intros Hin%IH. simpl in Hin. apply elem_of_app in Hin as [|Hin]; [done|].
      by apply list_elem_of_singleton in Hin.
Qed.

End ExecutorFacts.

(** C1, as the code has it.  When the target name of a plan entry exists in
    the directory at the moment the executor reaches the entry, the entry
    leaves the directory as it is and is counted in [error_count], with an
    error line of its own kind (there is no separate count of skipped
    entries); the rest of the plan is then applied from that state, and the
    source file is still there, unchanged, when the executor has finished.
    The sources of a plan are distinct, as the files of a listing are. *)
Theorem existing_target_is_an_error `{Platform}
    (pre post : list (string * string)) (old_name new_name : string)
    (st : applied) (x : node) :
  NoDup (pre ++ (old_name, new_name) :: post).*1 ->
  ap_dir st !! old_name = Some x ->
  path_exists (ap_dir (apply_loop pre st)) new_name = true ->
  apply_loop (pre ++ (old_name, new_name) :: post) st
  = apply_loop post
      (record_error (apply_loop pre st) (MsgErrorTargetExists old_name new_name))
  /\ ap_dir (record_error (apply_loop pre st) (MsgErrorTargetExists old_name new_name))
     = ap_dir (apply_loop pre st)
  /\ ap_error (record_error (apply_loop pre st) (MsgErrorTargetExists old_name new_name))
     = ap_error (apply_loop pre st) + 1
  /\ ap_dir (apply_loop (pre ++ (old_name, new_name) :: post) st) !! old_name = Some x.
Proof.
  intros Hnodup Hold Hex.
  destruct (apply_loop_target_exists _ _ _ _ _ _ Hnodup Hold Hex) as [Hstep Hkept].
  split; [exact Hstep|]. split; [reflexivity|]. split; [reflexivity|].
  rewrite Hstep. exact Hkept.
Qed.

Lemma existing_target_is_an_error_witness :
  path_exists dir_clash "x_a.txt" = true
  /\ dir_clash !! "a.txt" = Some (File 1)
  /\ @apply_loop model [("a.txt", "x_a.txt"); ("x_a.txt", "x_x_a.txt")]
       {| ap_dir := dir_clash; ap_success := 0; ap_error := 0; ap_stdout := [] |}
     = @apply_loop model [("x_a.txt", "x_x_a.txt")]
         {| ap_dir := dir_clash; ap_success := 0; ap_error := 1;
            ap_stdout := [MsgErrorTargetExists "a.txt" "x_a.txt"] |}
  /\ ap_dir (@apply_loop model [("a.txt", "x_a.txt"); ("x_a.txt", "x_x_a.txt")]
       {| ap_dir := dir_clash; ap_success := 0; ap_error := 0; ap_stdout := [] |})
     !! "a.txt" = Some (File 1).
Proof.
  assert (Hex : path_exists dir_clash "x_a.txt" = true) by (vm_compute; reflexivity).
  assert (Hold : dir_clash !! "a.txt" = Some (File 1)) by (vm_compute; reflexivity).
  assert (Hnodup : NoDup ([] ++ ("a.txt", "x_a.txt") :: [("x_a.txt", "x_x_a.txt")]).*1).
  { simpl. apply NoDup_cons. split; [|apply NoDup_singleton].
    intros Hin%list_elem_of_singleton. discriminate. }
  split; [exact Hex|]. split; [exact Hold|].
  destruct (@existing_target_is_an_error model [] [("x_a.txt", "x_x_a.txt")]
              "a.txt" "x_a.txt"
              {| ap_dir := dir_clash; ap_success := 0; ap_error := 0; ap_stdout := [] |}
              (File 1) Hnodup Hold Hex) as (Hstep & _ & _ & Hkept).
  split; [exact Hstep | exact Hkept].
Defined.

(** C1 as stated fails: the entry whose target exists is reported as a
    failure; the run prints the error line and ends with a summary of one
    success (the other entry) and one failure. *)
Lemma existing_target_counts_as_failure :
  path_exists dir_clash "x_a.txt" = true
  /\ @bulk_rename model (Some dir_clash) "prefix" (prefix_kwargs "x_" true) None
     = {| run_status := RetDone 1 1;
          run_dir := Some (<["a.txt" := File 1]> (<["x_x_a.txt" := File 2]> ∅));
          run_stdout :=
            [ MsgPreview [("a.txt", "x_a.txt"); ("x_a.txt", "x_x_a.txt")];
              MsgErrorTargetExists "a.txt" "x_a.txt";
              MsgDone 1 1 ] |}.
Proof. split; vm_compute; reflexivity. Qed.

(** ** The confirmation prompt *)
Section PromptFacts.
Context `{Platform}.

Lemma confirmed_iff response : confirmed response = true <-> lower (strip response) = "y".
Proof. unfold confirmed. apply String.eqb_eq. Qed.

Lemma confirmed_not response :
  confirmed response = false <-> lower (strip response) <> "y".
Proof. unfold confirmed. apply String.eqb_neq. Qed.

(** Without [force], a run that is not confirmed returns the directory
    as it found it, whichever statement it returns from. *)
Lemma unconfirmed_run dir mode kw stdin :
  get (kw_force kw) false = false ->
  (forall response, stdin = Some response -> confirmed response = false) ->
  run_dir (bulk_rename dir mode kw stdin) = dir
  /\ forall s e, run_status (bulk_rename dir mode kw stdin) <> RetDone s e.
Proof.
  intros Hforce Hno. unfold bulk_rename.
  destruct dir as [d|]; [|done].
  destruct (filter _ _) as [|f files]; [done|].
  destruct (plan_loop _ _ _ _ _) as [c [|e plan]| |e]; try done.
  rewrite Hforce. simpl.
  destruct stdin as [response|]; [|done].
  by rewrite (Hno response eq_refl).
Qed.

End PromptFacts.

(** C5.  When [force] is not set and the operator's answer is not a
    confirmation, the run ends without having applied the plan and the
    directory is as it was: no file has been renamed. *)
Theorem declined_run_mutates_nothing `{Platform}
    (dir : option (gmap string node)) (mode : string) (kw : kwargs)
    (response : string) :
  get (kw_force kw) false = false ->
  lower (strip response) <> "y" ->
  run_dir (bulk_rename dir mode kw (Some response)) = dir
  /\ forall s e, run_status (bulk_rename dir mode kw (Some response)) <> RetDone s e.
Proof.
  intros Hforce Hno. apply unconfirmed_run; [done|].
  intros r [= <-]. by apply confirmed_not.
Qed.

Lemma declined_run_mutates_nothing_witness :
  get (kw_force (prefix_kwargs "x_" false)) false = false
  /\ lower (strip "n") <> "y"
  /\ run_dir (@bulk_rename model (Some dir_abc) "prefix" (prefix_kwargs "x_" false)
                (Some "n")) = Some dir_abc
  /\ forall s e,
       run_status (@bulk_rename model (Some dir_abc) "prefix" (prefix_kwargs "x_" false)
                     (Some "n")) <> RetDone s e.
Proof.
  assert (Hn : lower (strip "n") <> "y") by (vm_compute; discriminate).
  split; [reflexivity|]. split; [exact Hn|].
  exact (@declined_run_mutates_nothing model (Some dir_abc) "prefix"
           (prefix_kwargs "x_" false) "n" eq_refl Hn).
Defined.

(** C9.  When the prompt is reached (there is a plan and [force] is not
    set), the plan is applied if the answer, stripped and lower-cased, is
    exactly [y]; any other answer cancels the run and leaves the directory
    as it was. *)
Theorem prompt_proceeds_only_on_y `{Platform}
    (d : gmap string node) (mode : string) (kw : kwargs) (response : string)
    (f : string) (files : list string) (c : Z)
    (e : string * string) (plan : list (string * string)) :
  filter (fun f => isfile d f = true) (listdir d) = f :: files ->
  plan_loop mode kw (enumerate (sort (f :: files)) 1) 1 [] = LoopDone c (e :: plan) ->
  get (kw_force kw) false = false ->
  (lower (strip response) = "y" ->
   bulk_rename (Some d) mode kw (Some response)
   = execute d (e :: plan) [MsgPreview (e :: plan)])
  /\ (lower (strip response) <> "y" ->
      bulk_rename (Some d) mode kw (Some response)
      = {| run_status := RetCancelled; run_dir := Some d;
           run_stdout := [MsgPreview (e :: plan); MsgCancelled] |}).
Proof.
  intros Hfiles Hplan Hforce. unfold bulk_rename.
  rewrite Hfiles, Hplan, Hforce. simpl.
  split.
  - intros Hy%confirmed_iff. by rewrite Hy.
  - intros Hn%confirmed_not. by rewrite Hn.
Qed.

Lemma prompt_proceeds_only_on_y_witness :
  lower (strip "yes") <> "y"
  /\ lower (strip "  Y ") = "y"
  /\ @bulk_rename model (Some dir_abc) "prefix" (prefix_kwargs "x_" false) (Some "yes")
     = {| run_status := RetCancelled; run_dir := Some dir_abc;
          run_stdout :=
            [ MsgPreview [("a.txt", "x_a.txt"); ("b.txt", "x_b.txt"); ("c.txt", "x_c.txt")];
              MsgCancelled ] |}
  /\ @bulk_rename model (Some dir_abc) "prefix" (prefix_kwargs "x_" false) (Some "  Y ")
     = @execute model dir_abc
         [("a.txt", "x_a.txt"); ("b.txt", "x_b.txt"); ("c.txt", "x_c.txt")]
         [MsgPreview [("a.txt", "x_a.txt"); ("b.txt", "x_b.txt"); ("c.txt", "x_c.txt")]].
Proof.
  assert (Hyes : lower (strip "yes") <> "y") by (vm_compute; discriminate).
  assert (HY : lower (strip "  Y ") = "y") by (vm_compute; reflexivity).
  assert (Hfiles : filter (fun f => isfile dir_abc f = true) (listdir dir_abc)
                   = "c.txt" :: ["a.txt"; "b.txt"]) by (vm_compute; reflexivity).
  assert (Hplan : @plan_loop model "prefix" (prefix_kwargs "x_" false)
                    (enumerate (sort ("c.txt" :: ["a.txt"; "b.txt"])) 1) 1 []
                  = LoopDone 1 (("a.txt", "x_a.txt")
                                :: [("b.txt", "x_b.txt"); ("c.txt", "x_c.txt")]))
    by (vm_compute; reflexivity).
  split; [exact Hyes|]. split; [exact HY|]. split.
  - exact (proj2 (@prompt_proceeds_only_on_y model dir_abc "prefix"
                    (prefix_kwargs "x_" false) "yes" _ _ _ _ _ Hfiles Hplan eq_refl) Hyes).
  - exact (proj1 (@prompt_proceeds_only_on_y model dir_abc "prefix"
                    (prefix_kwargs "x_" false) "  Y " _ _ _ _ _ Hfiles Hplan eq_refl) HY).
Defined.

(** ** The exit status *)
Section MainFacts.
Context `{Platform}.
Import Argparse.

Lemma unknown_choice mode :
  mode ∉ ["prefix"; "suffix"; "replace"; "regex"; "pattern"] ->
  assoc mode subparsers = None.
Proof.
  intros Hnot. unfold subparsers. simpl.
  repeat match goal with
         | |- context [String.eqb mode ?m] =>
             destruct (String.eqb_spec mode m) as [->|_];
             [exfalso; apply Hnot; set_solver|]
         end.
  done.
Qed.

(** A command line with a mode reaches [bulk_rename], and the status is 0
    unless an exception leaves it. *)
Lemma main_reaches_bulk_rename argv fs stdin status r :
  main argv fs stdin = Some (status, Some r) ->
  status = match run_status r with Raised _ => 1 | _ => 0 end.
Proof.
  unfold main. destruct (parse_args argv) as [st|args|]; try done.
  destruct (attr args "mode") as [[|a mode]|]; try done.
  by intros [= <- <-].
Qed.

End MainFacts.

(** C2, as the code has it.  The process ends with status 0 whenever
    [bulk_rename] returns, which includes the cases of no file, of no change
    and also of a directory that is not one; it ends with a non-zero status
    when no mode is given (1), when the mode is not one of the five
    sub-commands (2, from the argument parser) and when an exception leaves
    [bulk_rename] (1). *)
Theorem exit_status_of_main `{Platform}
    (fs : string -> option (gmap string node)) (stdin : option string) :
  (forall argv status r,
     main argv fs stdin = Some (status, Some r) ->
     (status = 0 <-> forall e, run_status r <> Raised e)
     /\ (status <> 0 <-> exists e, run_status r = Raised e))
  /\ (forall argv args mode,
        Argparse.parse_args argv = Argparse.Parsed args ->
        Argparse.attr args "mode" = Some mode -> mode <> "" ->
        fs (get (Argparse.attr args "directory") "") = None ->
        main argv fs stdin
        = Some (0, Some {| run_status := RetNotADirectory; run_dir := None;
                           run_stdout := [MsgNotADirectory] |}))
  /\ (forall directory mode tokens,
        Argparse.optionlike directory = false ->
        Argparse.optionlike mode = false ->
        mode ∉ ["prefix"; "suffix"; "replace"; "regex"; "pattern"] ->
        main (directory :: mode :: tokens) fs stdin = Some (2, None))
  /\ (forall directory,
        Argparse.optionlike directory = false ->
        main [directory] fs stdin = Some (1, None)).
Proof.
  split; [|split; [|split]].
  - intros argv status r Hmain.
    apply main_reaches_bulk_rename in Hmain as ->.
    destruct (run_status r); split; split; try done; try lia; try (intros [e' [=]]).
    + intros Hno. by destruct (Hno e).
    + intros _. by eexists.
  - intros argv args mode Hparse Hmode Hne Hdir. unfold main.
    rewrite Hparse, Hmode, Hdir. by destruct mode.
  - intros directory mode tokens Hd Hm Hnot. unfold main, Argparse.parse_args.
    by rewrite Hd, Hm, (unknown_choice mode Hnot).
  - intros directory Hd. unfold main, Argparse.parse_args. by rewrite Hd.
Qed.

Lemma exit_status_of_main_witness :
  @main model ["docs"; "prefix"; "x_"] (fun _ => Some dir_abc) (Some "n")
  = Some (0, Some {| run_status := RetCancelled; run_dir := Some dir_abc;
                     run_stdout :=
                       [ MsgPreview [("a.txt", "x_a.txt"); ("b.txt", "x_b.txt");
                                     ("c.txt", "x_c.txt")];
                         MsgCancelled ] |})
  /\ @main model ["docs"; "shuffle"; "x_"] (fun _ => Some dir_abc) (Some "n")
     = Some (2, None)
  /\ @main model ["docs"] (fun _ => Some dir_abc) (Some "n") = Some (1, None)
  /\ (0 = 0 <-> forall e, RetCancelled <> Raised e).
Proof.
  destruct (@exit_status_of_main model (fun _ => Some dir_abc) (Some "n"))
    as (Hreached & _ & Hunknown & Hnomode).
  split; [vm_compute; reflexivity|]. split; [|split].
  - apply Hunknown; [reflexivity | reflexivity |].
    intros Hin. repeat (apply elem_of_cons in Hin as [Hin|Hin]; [discriminate|]).
    by apply elem_of_nil in Hin.
  - apply Hnomode. reflexivity.
  - assert (Hrun : @main model ["docs"; "prefix"; "x_"] (fun _ => Some dir_abc) (Some "n")
                   = Some (0, Some {| run_status := RetCancelled;
                                      run_dir := Some dir_abc;
                                      run_stdout :=
                                        [ MsgPreview [("a.txt", "x_a.txt");
                                                      ("b.txt", "x_b.txt");
                                                      ("c.txt", "x_c.txt")];
                                          MsgCancelled ] |}))
      by (vm_compute; reflexivity).
    exact (proj1 (Hreached _ _ _ Hrun)).
Defined.

(** C2 as stated fails: with a directory that is not one the script prints
    its message, returns, and the process ends with status 0. *)
Lemma invalid_directory_exits_with_0 :
  @main model ["no/such/dir"; "prefix"; "x_"] (fun _ => None) None
  = Some (0, Some {| run_status := RetNotADirectory; run_dir := None;
                     run_stdout := [MsgNotADirectory] |}).
Proof. vm_compute. reflexivity. Qed.

(** ** Regex mode *)

(** C4, as the code has it.  With pattern [IMG_(\d+)] the replacement
    [photo_\1], in Python's syntax for a group reference, turns
    [IMG_0012.jpg] into [photo_0012.jpg]; so does [photo_\g<1>]. *)
Theorem regex_group_reference :
  @regex_replace model "IMG_0012.jpg" "IMG_(\d+)" "photo_\1" = Some "photo_0012.jpg"
  /\ @regex_replace model "IMG_0012.jpg" "IMG_(\d+)" "photo_\g<1>" = Some "photo_0012.jpg".
Proof. split; vm_compute; reflexivity. Qed.

(** C4 as stated fails: [$1] is not a group reference for [re.sub]; the
    replacement [photo_$1] is copied as it is. *)
Lemma dollar_is_not_a_group_reference :
  @regex_replace model "IMG_0012.jpg" "IMG_(\d+)" "photo_$1" = Some "photo_$1.jpg"
  /\ "photo_$1.jpg" <> "photo_0012.jpg".
Proof. split; [vm_compute; reflexivity | discriminate]. Qed.

(** ** Whole runs *)
Section RunFacts.
Context `{Platform}.

Lemma sort_sorted files : Sorted String.le (sort files).
Proof. apply Sorted_merge_sort. apply _. Qed.

Lemma sort_permutation files : sort files ≡ₚ files.
Proof. apply merge_sort_Permutation. Qed.

(** The sorted listing has no repetition and names regular files of the
    directory. *)
Lemma listing_files d :
  NoDup (sort (filter (fun f => isfile d f = true) (listdir d)))
  /\ forall f, f ∈ sort (filter (fun f => isfile d f = true) (listdir d)) ->
               exists i, d !! f = Some (File i).
Proof.
  split.
  - rewrite sort_permutation. apply NoDup_filter. apply NoDup_fst_map_to_list.
  - intros f. rewrite sort_permutation. intros [Hfile _]%list_elem_of_filter.
    unfold isfile in Hfile. destruct (d !! f) as [[i|]|]; try done. by exists i.
Qed.

(** Every plan that a run previews is free of no-op entries. *)
Lemma previewed_plan_has_no_noop dir mode kw stdin plan :
  MsgPreview plan ∈ run_stdout (bulk_rename dir mode kw stdin) -> Forall no_noop plan.
Proof.
  unfold bulk_rename.
  destruct dir as [d|]; simpl; [|by intros [=]%list_elem_of_singleton].
  destruct (filter _ _) as [|f files]; simpl; [by intros [=]%list_elem_of_singleton|].
  destruct (plan_loop _ _ _ _ _) as [c changes| |e] eqn:Hloop; simpl;
    [|by intros [=]%list_elem_of_singleton|by intros ?%elem_of_nil].
  assert (Hok : Forall no_noop changes) by (eapply plan_loop_no_noop; [exact Hloop|done]).
  assert (Hexec : MsgPreview plan ∈ run_stdout (execute d changes [MsgPreview changes]) ->
                  Forall no_noop plan).
  { unfold execute. simpl. intros [Hin|[=]%list_elem_of_singleton]%elem_of_app.
    apply apply_loop_preview in Hin. simpl in Hin.
    by apply list_elem_of_singleton in Hin as [= ->]. }
  destruct changes as [|e changes]; [by intros [=]%list_elem_of_singleton|].
  destruct (negb (get (kw_force kw) false)); [|done].
  destruct stdin as [response|]; simpl.
  - destruct (negb (confirmed response)); [|done]. simpl.
    intros [[= ->]|[=]%list_elem_of_singleton]%elem_of_cons. done.
  - by intros [= ->]%list_elem_of_singleton.
Qed.

(** In a forced run, the source of an entry whose target exists when the
    executor reaches it is in the directory afterwards, as it was. *)
Lemma forced_run_keeps_source d mode kw stdin f files c pre old_name new_name post :
  filter (fun f => isfile d f = true) (listdir d) = f :: files ->
  plan_loop mode kw (enumerate (sort (f :: files)) 1) 1 []
  = LoopDone c (pre ++ (old_name, new_name) :: post) ->
  get (kw_force kw) false = true ->
  path_exists
    (ap_dir (apply_loop pre {| ap_dir := d; ap_success := 0; ap_error := 0;
                               ap_stdout := [MsgPreview (pre ++ (old_name, new_name) :: post)] |}))
    new_name = true ->
  exists d' s e,
    bulk_rename (Some d) mode kw stdin
    = {| run_status := RetDone s e; run_dir := Some d';
         run_stdout := run_stdout (bulk_rename (Some d) mode kw stdin) |}
    /\ 0 < e
    /\ is_Some (d !! old_name) /\ d' !! old_name = d !! old_name.
Proof.
  intros Hfiles Hplan Hforce Hex.
  destruct (listing_files d) as [Hnodup Hin]. rewrite Hfiles in Hnodup, Hin.
  destruct (plan_sources_NoDup _ _ _ _ _ Hplan Hnodup) as [Hsrc Hsub].
  assert (exists i, d !! old_name = Some (File i)) as [i Hold].
  { apply Hin, Hsub. rewrite fmap_app, fmap_cons. apply elem_of_app. right. by left. }
  unfold bulk_rename. rewrite Hfiles, Hplan, Hforce. simpl.
  destruct (pre ++ (old_name, new_name) :: post) as [|e0 plan] eqn:Hshape;
    [by destruct pre|].
  rewrite <- Hshape in *. unfold execute.
  destruct (apply_loop_target_exists pre post old_name new_name
              {| ap_dir := d; ap_success := 0; ap_error := 0;
                 ap_stdout := [MsgPreview (pre ++ (old_name, new_name) :: post)] |}
              (File i) Hsrc Hold Hex) as [Hstep Hkept].
  eexists _, _, _. split; [reflexivity|]. rewrite Hold.
  split; [|split; [by eexists|by rewrite Hstep]].
  rewrite Hstep. apply Z.lt_le_trans with (ap_error (record_error
    (apply_loop pre {| ap_dir := d; ap_success := 0; ap_error := 0;
                       ap_stdout := [MsgPreview (pre ++ (old_name, new_name) :: post)] |})
    (MsgErrorTargetExists old_name new_name))).
  - simpl. pose proof (apply_loop_error_mono pre
      {| ap_dir := d; ap_success := 0; ap_error := 0;
         ap_stdout := [MsgPreview (pre ++ (old_name, new_name) :: post)] |}).
    simpl in *. lia.
  - apply apply_loop_error_mono.
Qed.

End RunFacts.

(** ** The examples of the specification *)

Example prefix_three_files :
  @bulk_rename model (Some dir_abc) "prefix" (prefix_kwargs "x_" true) None
  = {| run_status := RetDone 3 0;
       run_dir := Some (<["x_a.txt" := File 1]>
                          (<["x_b.txt" := File 2]> (<["x_c.txt" := File 3]> ∅)));
       run_stdout :=
         [ MsgPreview [("a.txt", "x_a.txt"); ("b.txt", "x_b.txt"); ("c.txt", "x_c.txt")];
           MsgDone 3 0 ] |}.
Proof. vm_compute. reflexivity. Qed.

Example pattern_three_files :
  run_stdout (@bulk_rename model (Some dir_abc) "pattern"
                (pattern_kwargs "file_{counter:03d}{ext}" true) None)
  = [ MsgPreview [("a.txt", "file_001.txt"); ("b.txt", "file_002.txt");
                  ("c.txt", "file_003.txt")];
      MsgDone 3 0 ].
Proof. vm_compute. reflexivity. Qed.

Example pattern_unknown_field_raises :
  run_status (@bulk_rename model (Some dir_abc) "pattern"
                (pattern_kwargs "{stem}{ext}" true) None) = Raised FormatError.
Proof. vm_compute. reflexivity. Qed.

Example splitext_examples :
  splitext "IMG_0012.jpg" = ("IMG_0012", ".jpg")
  /\ splitext ".bashrc" = (".bashrc", "")
  /\ splitext "archive.tar.gz" = ("archive.tar", ".gz")
  /\ splitext "..." = ("...", "")
  /\ splitext "a.b/c" = ("a.b/c", "")
  /\ splitext "name." = ("name", ".").
Proof. vm_compute. repeat split. Qed.

Example replace_examples :
  replace "aa" "b" "aaaaa" = "bba"
  /\ replace "" "X" "abc" = "XaXbXcX"
  /\ replace "" "X" "" = "X"
  /\ replace_text "abc.txt" "" "-" = "-a-b-c-.txt".
Proof. vm_compute. repeat split. Qed.

Example re_sub_examples :
  Re.sub "x*" "-" "abxd" = Some "-a-b--d-"
  /\ Re.sub "(a|b)+c?" "[\g<1>]" "zabcab" = Some "z[b][b]"
  /\ Re.sub "(a)(b)?" "\2\1" "ab a" = Some "ba a"
  /\ Re.sub "(a" "" "ab a" = None
  /\ Re.sub "a" "\2" "ab a" = None.
Proof. vm_compute. repeat split. Qed.


(** * Further properties of the transforms *)
Section TransformFacts.
Implicit Types (s t u p f v stem e old new : string) (c a : ascii).

Lemma substring_app_l s t n k :
  (n + k <= String.length s)%nat ->
  String.substring n k (s +:+ t) = String.substring n k s.
Proof.
  revert n k. induction s as [|a s IH]; intros n k Hle; simpl in Hle.
  - assert (n = O) as -> by lia. assert (k = O) as -> by lia.
    rewrite app_nil_l. simpl. by rewrite substring_0_0.
  - rewrite app_cons. destruct n as [|n]; destruct k as [|k]; simpl; try done.
    + f_equal. apply IH. lia.
    + apply IH. lia.
    + apply IH. lia.
Qed.

Lemma slice_app_l j s t :
  0 <= j < len s -> slice j (j + 1) (s +:+ t) = slice j (j + 1) s.
Proof.
  intros Hj. unfold slice. apply substring_app_l. unfold len in Hj. lia.
Qed.

Lemma slice_to_app s t : slice_to (len s) (s +:+ t) = s.
Proof.
  unfold slice_to, slice, len.
  replace (Z.to_nat (Z.of_nat (String.length s) - 0)) with (String.length s) by lia.
  simpl. rewrite substring_app_l by lia. apply substring_all.
Qed.

(** A string that is not made of [c] alone has a character that is not
    [c]. *)
Lemma not_all_chars c s :
  all_chars (Ascii.eqb c) s = false ->
  exists j, 0 <= j < len s /\ slice j (j + 1) s <> String c "".
Proof.
  induction s as [|a s IH]; simpl; [done|].
  destruct (Ascii.eqb_spec c a) as [<-|Hne]; simpl.
  - intros (j & Hj & Hs)%IH. exists (j + 1). rewrite len_cons. split; [lia|].
    unfold slice in *. replace (Z.to_nat (j + 1)) with (S (Z.to_nat j)) by lia.
    simpl. by replace (j + 1 + 1 - (j + 1)) with (j + 1 - j) by lia.
  - intros _. exists 0. rewrite len_cons. pose proof (len_nonneg s). split; [lia|].
    unfold slice. simpl. destruct s; simpl; congruence.
Qed.

Lemma splitext_stem_dot_ext stem e :
  contains "/" stem = false -> all_chars (Ascii.eqb ".") stem = false ->
  contains "." e = false -> contains "/" e = false ->
  splitext (stem +:+ String "." e) = (stem, String "." e).
Proof.
  intros Hsep Hdots He Hesep.
  apply rfind_absent in Hsep, He, Hesep.
  pose proof (len_nonneg stem) as Hlen.
  assert (Hdot : rfind "." (stem +:+ String "." e) = len stem).
  { rewrite rfind_app. simpl. rewrite He. simpl. lia. }
  assert (Hslash : rfind sep (stem +:+ String "." e) = -1).
  { unfold sep. rewrite rfind_app. simpl. rewrite Hesep. simpl. done. }
  unfold splitext, extsep. rewrite Hdot, Hslash.
  assert (Hgo : (-1 <? len stem)
                && skip_leading_dots (Z.to_nat (len stem - (-1 + 1)))
                     (stem +:+ String "." e) (len stem) (-1 + 1) = true).
  { apply andb_true_iff. split; [apply Z.ltb_lt; lia|].
    apply skip_leading_dots_true.
    destruct (not_all_chars _ _ Hdots) as (j & Hj & Hc).
    exists j. repeat split; try lia. by rewrite slice_app_l. }
  rewrite Hgo. f_equal; [apply slice_to_app|].
  replace (len stem) with (len stem + 0) at 1 by lia.
  rewrite slice_from_app by lia. apply slice_from_0.
Qed.

Lemma prefix_split old s :
  String.prefix old s = true ->
  old +:+ String.substring (String.length old) (String.length s - String.length old) s = s.
Proof.
  revert s. induction old as [|a old IH]; intros s; simpl.
  - intros _. rewrite app_nil_l, Nat.sub_0_r. apply substring_all.
  - destruct s as [|b s]; simpl; [done|]. destruct (ascii_dec a b) as [->|]; [|done].
    intros Hp%IH. rewrite app_cons. by rewrite Hp.
Qed.

Lemma replace_scan_same old skip s :
  old <> "" ->
  replace_scan old old skip s = String.substring skip (String.length s - skip) s.
Proof.
  intros Hold. revert skip. induction s as [|a s IH]; intros skip.
  - by destruct skip.
  - destruct skip as [|k].
    + cbn [replace_scan]. destruct (String.prefix old (String a s)) eqn:Hp.
      * rewrite IH. apply prefix_split in Hp.
        destruct old as [|o old]; [done|]. simpl in *.
        rewrite app_cons in *. injection Hp as -> Hp.
        rewrite substring_all. f_equal. rewrite <- Hp at 3. done.
      * rewrite IH. simpl. by rewrite Nat.sub_0_r, !substring_all.
    + simpl. apply IH.
Qed.

Lemma replace_interleave_empty s : replace_interleave "" s = s.
Proof. induction s as [|a s IH]; [done|]. simpl. by rewrite app_nil_l, IH. Qed.

Lemma replace_same old s : replace old old s = s.
Proof.
  destruct old as [|o old]; simpl; [apply replace_interleave_empty|].
  rewrite replace_scan_same by done. simpl. rewrite Nat.sub_0_r. apply substring_all.
Qed.

End TransformFacts.

(** X1.  Splitting a name and joining the two parts gives the name back,
    and prefix mode is concatenation with the whole name, whatever the
    split finds. *)
Theorem add_prefix_is_concat (filename prefix : string) :
  (splitext filename).1 +:+ (splitext filename).2 = filename
  /\ add_prefix filename prefix = prefix +:+ filename.
Proof. split; [apply splitext_join | apply add_prefix_app]. Qed.

(** X2.  Suffix mode puts the suffix before the extension: for a stem
    without a slash that is not made of dots alone, and an extension part
    without a dot or a slash, [stem.e] becomes [stem + suffix + .e]. *)
Theorem suffix_goes_before_extension (stem e suffix : string) :
  contains "/" stem = false -> all_chars (Ascii.eqb ".") stem = false ->
  contains "." e = false -> contains "/" e = false ->
  add_suffix (stem +:+ String "." e) suffix = stem +:+ suffix +:+ String "." e.
Proof.
  intros Hsep Hdots He Hesep. unfold add_suffix.
  by rewrite splitext_stem_dot_ext.
Qed.

Lemma suffix_goes_before_extension_witness :
  add_suffix "archive.tar.gz" "_v2" = "archive.tar_v2.gz".
Proof.
  exact (suffix_goes_before_extension "archive.tar" "gz" "_v2"
           eq_refl eq_refl eq_refl eq_refl).
Defined.

(** X3.  Parameters that ask for no change give the name back: an empty
    prefix, an empty suffix, and a replacement of a text by itself. *)
Theorem identity_parameters (filename text : string) :
  add_prefix filename "" = filename
  /\ add_suffix filename "" = filename
  /\ replace_text filename text text = filename.
Proof.
  split; [by rewrite add_prefix_app|]. split.
  - rewrite add_suffix_split, app_nil_r. apply splitext_join.
  - unfold replace_text. pose proof (splitext_join filename) as J.
    destruct (splitext filename) as [name ext]. by rewrite replace_same.
Qed.

(** * Further properties of the planner *)
Section PlanFacts.
Context `{Platform}.
Implicit Types (items : list (Z * string)) (changes plan : list (string * string)).

(** A mode that gives every name back plans nothing. *)
Lemma plan_loop_all_noop mode kw items counter changes :
  (forall index filename c, loop_body mode kw index filename c = NewName filename c) ->
  plan_loop mode kw items counter changes = LoopDone counter changes.
Proof.
  intros Hbody. revert changes.
  induction items as [|[index filename] items IH]; intros changes; simpl; [done|].
  by rewrite Hbody, String.eqb_refl.
Qed.

Lemma loop_body_unknown mode kw index filename counter :
  mode ∉ ["prefix"; "suffix"; "replace"; "regex"; "pattern"] ->
  loop_body mode kw index filename counter = BodyUnknownMode.
Proof.
  intros Hnot. unfold loop_body.
  repeat match goal with
         | |- context [String.eqb mode ?m] =>
             destruct (String.eqb_spec mode m) as [->|_];
             [exfalso; apply Hnot; set_solver|]
         end.
  done.
Qed.

Lemma StronglySorted_sublist {A} (R : relation A) (l1 l2 : list A) :
  l1 `sublist_of` l2 -> StronglySorted R l2 -> StronglySorted R l1.
Proof.
  induction 1 as [|x l1 l2 Hsub IH|x l1 l2 Hsub IH]; [done| |].
  - intros [Hs Hall]%StronglySorted_inv. constructor; [by apply IH|].
    apply Forall_forall. intros y Hy. rewrite Forall_forall in Hall.
    apply Hall. by eapply elem_of_sublist.
  - intros [Hs _]%StronglySorted_inv. by apply IH.
Qed.

Lemma sort_strongly_sorted files : StronglySorted String.le (sort files).
Proof. apply StronglySorted_merge_sort; apply _. Qed.

End PlanFacts.

(** X5.  With the arguments that [kwargs.get] falls back to (an empty
    prefix, an empty suffix, and a text replaced by itself, as the two
    empty defaults of replace mode are), a directory with files gets the
    message that nothing needs renaming, and nothing else happens. *)
Theorem default_arguments_change_nothing `{Platform}
    (d : gmap string node) (mode : string) (kw : kwargs) (stdin : option string)
    (f : string) (files : list string) :
  filter (fun f => isfile d f = true) (listdir d) = f :: files ->
  (mode = "prefix" /\ get (kw_prefix kw) "" = "")
  \/ (mode = "suffix" /\ get (kw_suffix kw) "" = "")
  \/ (mode = "replace" /\ get (kw_old_text kw) "" = get (kw_new_text kw) "") ->
  bulk_rename (Some d) mode kw stdin
  = {| run_status := RetNoChanges; run_dir := Some d; run_stdout := [MsgNoChanges] |}.
Proof.
  intros Hfiles Hmode. unfold bulk_rename. rewrite Hfiles.
  rewrite plan_loop_all_noop; [done|].
  intros index filename c. unfold loop_body.
  destruct Hmode as [[-> Hp] | [[-> Hs] | [-> Hr]]]; simpl.
  - by rewrite Hp, add_prefix_app.
  - by rewrite Hs, add_suffix_split, app_nil_r, splitext_join.
  - rewrite Hr. unfold replace_text. pose proof (splitext_join filename) as J.
    destruct (splitext filename) as [name ext]. simpl in J. by rewrite replace_same, J.
Qed.

Lemma default_arguments_change_nothing_witness :
  filter (fun f => isfile dir_abc f = true) (listdir dir_abc) = "c.txt" :: ["a.txt"; "b.txt"]
  /\ @bulk_rename model (Some dir_abc) "replace" no_kwargs None
     = {| run_status := RetNoChanges; run_dir := Some dir_abc;
          run_stdout := [MsgNoChanges] |}.
Proof.
  assert (Hfiles : filter (fun f => isfile dir_abc f = true) (listdir dir_abc)
                   = "c.txt" :: ["a.txt"; "b.txt"]) by (vm_compute; reflexivity).
  split; [exact Hfiles|].
  exact (@default_arguments_change_nothing model dir_abc "replace" no_kwargs None
           _ _ Hfiles (or_intror (or_intror (conj eq_refl eq_refl)))).
Defined.

(** X6.  The order in which the directory is listed does not matter: two
    listings of the same names are sorted into the same list, and give the
    same plan. *)
Theorem listing_order_is_irrelevant `{Platform}
    (mode : string) (kw : kwargs) (files1 files2 : list string) :
  files1 ≡ₚ files2 ->
  sort files1 = sort files2
  /\ plan_loop mode kw (enumerate (sort files1) 1) 1 []
     = plan_loop mode kw (enumerate (sort files2) 1) 1 [].
Proof.
  intros Hperm.
  assert (sort files1 = sort files2) as ->; [|done].
  apply (StronglySorted_unique String.le); try apply sort_strongly_sorted.
  by rewrite !sort_permutation.
Qed.

Lemma listing_order_is_irrelevant_witness :
  ["c.txt"; "a.txt"; "b.txt"] ≡ₚ ["a.txt"; "c.txt"; "b.txt"]
  /\ sort ["c.txt"; "a.txt"; "b.txt"] = sort ["a.txt"; "c.txt"; "b.txt"]
  /\ @plan_loop model "prefix" (prefix_kwargs "x_" true)
       (enumerate (sort ["c.txt"; "a.txt"; "b.txt"]) 1) 1 []
     = @plan_loop model "prefix" (prefix_kwargs "x_" true)
         (enumerate (sort ["a.txt"; "c.txt"; "b.txt"]) 1) 1 [].
Proof.
  assert (Hperm : ["c.txt"; "a.txt"; "b.txt"] ≡ₚ ["a.txt"; "c.txt"; "b.txt"])
    by apply perm_swap.
  split; [exact Hperm|].
  exact (@listing_order_is_irrelevant model "prefix" (prefix_kwargs "x_" true) _ _ Hperm).
Defined.

(** X7.  The plan follows the sorted listing: its sources are in
    non-decreasing order, no file is its source twice, and every source is a
    file of the listing. *)
Theorem plan_follows_sorted_listing `{Platform}
    (mode : string) (kw : kwargs) (files : list string)
    (c : Z) (plan : list (string * string)) :
  NoDup files ->
  plan_loop mode kw (enumerate (sort files) 1) 1 [] = LoopDone c plan ->
  StronglySorted String.le plan.*1
  /\ NoDup plan.*1
  /\ forall old_name, old_name ∈ plan.*1 -> old_name ∈ files.
Proof.
  intros Hnodup Hloop.
  pose proof Hloop as (added & -> & Hsub)%plan_loop_sources.
  rewrite enumerate_snd in Hsub. simpl.
  assert (NoDup (sort files)) as Hsorted by by rewrite sort_permutation.
  split; [|split].
  - eapply StronglySorted_sublist; [done|]. apply sort_strongly_sorted.
  - by eapply sublist_NoDup.
  - intros old_name Hin. rewrite <- (sort_permutation files). by eapply elem_of_sublist.
Qed.

Lemma plan_follows_sorted_listing_witness :
  NoDup ["c.txt"; "a.txt"; "b.txt"]
  /\ @plan_loop model "replace"
       {| kw_prefix := None; kw_suffix := None; kw_old_text := Some "c";
          kw_new_text := Some "z"; kw_pattern := None; kw_replacement := None;
          kw_force := None |}
       (enumerate (sort ["c.txt"; "a.txt"; "b.txt"]) 1) 1 []
     = LoopDone 1 [("c.txt", "z.txt")]
  /\ StronglySorted String.le [("c.txt", "z.txt")].*1.
Proof.
  assert (Hnodup : NoDup ["c.txt"; "a.txt"; "b.txt"]).
  { repeat (apply NoDup_cons; split;
            [intros Hin; repeat (apply elem_of_cons in Hin as [Hin|Hin]; [discriminate|]);
             by apply elem_of_nil in Hin|]).
    apply NoDup_nil_2. }
  assert (Hplan : @plan_loop model "replace"
                    {| kw_prefix := None; kw_suffix := None; kw_old_text := Some "c";
                       kw_new_text := Some "z"; kw_pattern := None;
                       kw_replacement := None; kw_force := None |}
                    (enumerate (sort ["c.txt"; "a.txt"; "b.txt"]) 1) 1 []
                  = LoopDone 1 [("c.txt", "z.txt")]) by reflexivity.
  split; [exact Hnodup|]. split; [exact Hplan|].
  exact (proj1 (@plan_follows_sorted_listing model "replace" _ _ 1 _ Hnodup Hplan)).
Defined.

(** X8.  A mode that is none of the five reaches the message for an
    unknown mode only when the directory has a file: without files the run
    says that there are none, whatever the mode.  The directory is left as
    it is in both cases. *)
Theorem unknown_mode_needs_a_file `{Platform}
    (d : gmap string node) (mode : string) (kw : kwargs) (stdin : option string) :
  mode ∉ ["prefix"; "suffix"; "replace"; "regex"; "pattern"] ->
  bulk_rename (Some d) mode kw stdin
  = match filter (fun f => isfile d f = true) (listdir d) with
    | [] => {| run_status := RetNoFiles; run_dir := Some d; run_stdout := [MsgNoFiles] |}
    | _ :: _ => {| run_status := RetUnknownMode; run_dir := Some d;
                   run_stdout := [MsgUnknownMode mode] |}
    end.
Proof.
  intros Hnot. unfold bulk_rename.
  destruct (filter _ _) as [|f files] eqn:Hfiles; [done|].
  destruct (sort (f :: files)) as [|g sorted] eqn:Hsort.
  - pose proof (sort_permutation (f :: files)) as Hperm. rewrite Hsort in Hperm.
    by apply Permutation_nil_cons in Hperm.
  - simpl. by rewrite loop_body_unknown.
Qed.

Lemma unknown_mode_needs_a_file_witness :
  ("shuffle" ∉ ["prefix"; "suffix"; "replace"; "regex"; "pattern"])
  /\ @bulk_rename model (Some dir_abc) "shuffle" no_kwargs None
     = {| run_status := RetUnknownMode; run_dir := Some dir_abc;
          run_stdout := [MsgUnknownMode "shuffle"] |}
  /\ @bulk_rename model (Some ∅) "shuffle" no_kwargs None
     = {| run_status := RetNoFiles; run_dir := Some ∅; run_stdout := [MsgNoFiles] |}.
Proof.
  assert (Hnot : "shuffle" ∉ ["prefix"; "suffix"; "replace"; "regex"; "pattern"]).
  { intros Hin. repeat (apply elem_of_cons in Hin as [Hin|Hin]; [discriminate|]).
    by apply elem_of_nil in Hin. }
  split; [exact Hnot|]. split.
  - exact (@unknown_mode_needs_a_file model dir_abc "shuffle" no_kwargs None Hnot).
  - exact (@unknown_mode_needs_a_file model ∅ "shuffle" no_kwargs None Hnot).
Defined.

(** * Further properties of the executor *)
Section ApplyFacts.
Context `{Platform}.
Implicit Types (changes plan : list (string * string)) (st : applied)
         (d : gmap string node).

(** Every entry is counted once, as a success or as an error. *)
Lemma apply_loop_counts changes st :
  ap_success (apply_loop changes st) + ap_error (apply_loop changes st)
  = ap_success st + ap_error st + Z.of_nat (length changes)
  /\ ap_success st <= ap_success (apply_loop changes st)
  /\ ap_error st <= ap_error (apply_loop changes st).
Proof.
  revert st. induction changes as [|[old_name new_name] changes IH]; intros st.
  - simpl. lia.
  - cbn [apply_loop length]. destruct (path_exists _ _).
    + destruct (IH (record_error st (MsgErrorTargetExists old_name new_name)))
        as (? & ? & ?). simpl in *. lia.
    + destruct (os_rename _ _ _) as [d'|].
      * destruct (IH {| ap_dir := d'; ap_success := ap_success st + 1;
                        ap_error := ap_error st; ap_stdout := ap_stdout st |})
          as (? & ? & ?). simpl in *. lia.
      * destruct (IH (record_error st (MsgErrorRenameFailed old_name new_name)))
          as (? & ? & ?). simpl in *. lia.
Qed.

(** What was printed before the loop is still there after it. *)
Lemma apply_loop_stdout changes st :
  exists more, ap_stdout (apply_loop changes st) = ap_stdout st ++ more.
Proof.
  revert st. induction changes as [|[old_name new_name] changes IH]; intros st; simpl.
  - exists []. by rewrite List.app_nil_r.
  - destruct (path_exists _ _).
    + destruct (IH (record_error st (MsgErrorTargetExists old_name new_name)))
        as [more ->]. simpl. eexists. by rewrite <- List.app_assoc.
    + destruct (os_rename _ _ _) as [d'|].
      * apply (IH {| ap_dir := d'; ap_success := ap_success st + 1;
                     ap_error := ap_error st; ap_stdout := ap_stdout st |}).
      * destruct (IH (record_error st (MsgErrorRenameFailed old_name new_name)))
          as [more ->]. simpl. eexists. by rewrite <- List.app_assoc.
Qed.




(** The run of [bulk_rename] on a directory, as the executor's or as one
    that returns the directory untouched. *)
Lemma bulk_rename_cases d mode kw stdin :
  run_dir (bulk_rename (Some d) mode kw stdin) = Some d
  /\ (forall s e, run_status (bulk_rename (Some d) mode kw stdin) <> RetDone s e)
  \/ exists c plan,
       plan <> []
       /\ plan_loop mode kw
            (enumerate (sort (filter (fun f => isfile d f = true) (listdir d))) 1) 1 []
          = LoopDone c plan
       /\ bulk_rename (Some d) mode kw stdin = execute d plan [MsgPreview plan].
Proof.
  unfold bulk_rename.
  destruct (filter _ _) as [|f files]; [by left|].
  destruct (plan_loop _ _ _ _ _) as [c [|e plan]| |e0] eqn:Hloop; try (by left).
  destruct (negb (get (kw_force kw) false)).
  - destruct stdin as [response|]; [|by left].
    destruct (negb (confirmed response)); [by left|].
    right. by exists c, (e :: plan).
  - right. by exists c, (e :: plan).
Qed.

End ApplyFacts.

(** X9.  A run that ends with the summary has counted every entry of the
    previewed plan exactly once: the successes and the errors, neither
    negative, add up to the length of the plan. *)
Theorem summary_counts_every_entry `{Platform}
    (dir : option (gmap string node)) (mode : string) (kw : kwargs)
    (stdin : option string) (s e : Z) :
  run_status (bulk_rename dir mode kw stdin) = RetDone s e ->
  exists plan,
    MsgPreview plan ∈ run_stdout (bulk_rename dir mode kw stdin)
    /\ s + e = Z.of_nat (length plan) /\ 0 <= s /\ 0 <= e.
Proof.
  destruct dir as [d|]; [|done].
  destruct (bulk_rename_cases d mode kw stdin) as [[_ Hno] | (c & plan & _ & _ & ->)].
  - intros Hdone. by destruct (Hno s e).
  - unfold execute. simpl. intros [= <- <-]. exists plan.
    destruct (apply_loop_counts plan
                {| ap_dir := d; ap_success := 0; ap_error := 0;
                   ap_stdout := [MsgPreview plan] |}) as (Hsum & Hs & He).
    destruct (apply_loop_stdout plan
                {| ap_dir := d; ap_success := 0; ap_error := 0;
                   ap_stdout := [MsgPreview plan] |}) as [more ->].
    simpl in *. split; [|lia]. set_solver.
Qed.

Lemma summary_counts_every_entry_witness :
  run_status (@bulk_rename model (Some dir_clash) "prefix" (prefix_kwargs "x_" true) None)
  = RetDone 1 1
  /\ exists plan,
       MsgPreview plan
       ∈ run_stdout (@bulk_rename model (Some dir_clash) "prefix"
                       (prefix_kwargs "x_" true) None)
       /\ 1 + 1 = Z.of_nat (length plan) /\ 0 <= 1 /\ 0 <= 1.
Proof.
  assert (Hrun : run_status (@bulk_rename model (Some dir_clash) "prefix"
                               (prefix_kwargs "x_" true) None) = RetDone 1 1)
    by (vm_compute; reflexivity).
  split; [exact Hrun|].
  exact (@summary_counts_every_entry model (Some dir_clash) "prefix"
           (prefix_kwargs "x_" true) None 1 1 Hrun).
Defined.



(** X11.  A subdirectory is never renamed: it has its name after every
    run. *)
Theorem subdirectory_keeps_its_name `{Platform}
    (d : gmap string node) (mode : string) (kw : kwargs) (stdin : option string)
    (name : string) :
  d !! name = Some Subdir ->
  exists d',
    run_dir (bulk_rename (Some d) mode kw stdin) = Some d' /\ d' !! name = Some Subdir.
Proof.
  intros Hsub.
  destruct (bulk_rename_cases d mode kw stdin) as [[Hdir _] | (c & plan & _ & Hplan & ->)].
  - by exists d.
  - unfold execute. simpl. eexists. split; [done|].
    apply apply_loop_keeps; [done|]. intros Hin.
    destruct (listing_files d) as [Hnodup Hfiles].
    destruct (plan_sources_NoDup _ _ _ _ _ Hplan Hnodup) as [_ Hsrc].
    destruct (Hfiles name (Hsrc name Hin)) as [i Hi]. congruence.
Qed.

Lemma subdirectory_keeps_its_name_witness :
  dir_mixed !! "docs" = Some Subdir
  /\ exists d',
       run_dir (@bulk_rename model (Some dir_mixed) "prefix" (prefix_kwargs "x_" true) None)
       = Some d' /\ d' !! "docs" = Some Subdir.
Proof.
  assert (Hsub : dir_mixed !! "docs" = Some Subdir) by (vm_compute; reflexivity).
  split; [exact Hsub|].
  exact (@subdirectory_keeps_its_name model dir_mixed "prefix" (prefix_kwargs "x_" true)
           None "docs" Hsub).
Defined.

(** X12.  With [force] the prompt is skipped and the input is not read: the
    run is the same whatever the input holds, also at its end. *)
Theorem force_reads_no_input `{Platform}
    (dir : option (gmap string node)) (mode : string) (kw : kwargs)
    (stdin1 stdin2 : option string) :
  get (kw_force kw) false = true ->
  bulk_rename dir mode kw stdin1 = bulk_rename dir mode kw stdin2.
Proof.
  intros Hforce. unfold bulk_rename. destruct dir as [d|]; [|done].
  destruct (filter _ _); [done|].
  destruct (plan_loop _ _ _ _ _) as [c [|e plan]| |e0]; try done.
  by rewrite Hforce.
Qed.

Lemma force_reads_no_input_witness :
  get (kw_force (prefix_kwargs "x_" true)) false = true
  /\ @bulk_rename model (Some dir_abc) "prefix" (prefix_kwargs "x_" true) None
     = @bulk_rename model (Some dir_abc) "prefix" (prefix_kwargs "x_" true) (Some "n").
Proof.
  split; [reflexivity|].
  exact (@force_reads_no_input model (Some dir_abc) "prefix" (prefix_kwargs "x_" true)
           None (Some "n") eq_refl).
Defined.

(** X13.  The directory changes only in a run that ends with the summary: a
    run that ends in any other way (not a directory, no files, unknown mode,
    an exception of the regex engine or of the formatter, no changes, end of
    input, a cancelled prompt) leaves it as it was. *)
Theorem only_the_executor_mutates `{Platform}
    (dir : option (gmap string node)) (mode : string) (kw : kwargs)
    (stdin : option string) :
  run_dir (bulk_rename dir mode kw stdin) = dir
  \/ exists s e, run_status (bulk_rename dir mode kw stdin) = RetDone s e.
Proof.
  destruct dir as [d|]; [|by left].
  destruct (bulk_rename_cases d mode kw stdin) as [[Hdir _] | (c & plan & _ & _ & ->)].
  - by left.
  - right. unfold execute. simpl. by eexists _, _.
Qed.



(** * Pattern mode with the model of [str.format] *)
Section FormatFacts.
Implicit Types (t lit spec rest body : string) (fields : format_kwargs).

Lemma plan_loop_noop_counter `{Platform} mode kw items counter changes :
  (forall index filename c,
     exists c', loop_body mode kw index filename c = NewName filename c') ->
  exists c', plan_loop mode kw items counter changes = LoopDone c' changes.
Proof.
  intros Hbody. revert counter.
  induction items as [|[index filename] items IH]; intros counter; simpl; [by eexists|].
  destruct (Hbody index filename counter) as [c' ->].
  rewrite String.eqb_refl. apply IH.
Qed.

Lemma format_default fields :
  Fmt.format "{name}{ext}" fields = Some (fk_name fields +:+ fk_ext fields).
Proof. unfold Fmt.format. simpl. by rewrite app_nil_r. Qed.

Lemma until_found stop body rest :
  contains stop body = false ->
  Fmt.until stop (body +:+ String stop rest) = Some (body, rest).
Proof.
  induction body as [|a body IH]; simpl; intros Hc.
  - rewrite ?app_nil_l. simpl. by rewrite Ascii.eqb_refl.
  - rewrite ?app_cons. simpl. apply orb_false_iff in Hc as [Ha Hc].
    rewrite Ha, IH by done. done.
Qed.

(** A literal character is copied. *)
Lemma format_loop_literal fuel c t fields :
  Ascii.eqb c "{" = false -> Ascii.eqb c "}" = false ->
  Fmt.format_loop (S fuel) (String c t) fields
  = match Fmt.format_loop fuel t fields with
    | Some out => Some (String c out)
    | None => None
    end.
Proof.
  destruct c as [[] [] [] [] [] [] [] []]; intros Ho Hc; try discriminate; reflexivity.
Qed.

Lemma until_app stop a b :
  contains stop a = false ->
  Fmt.until stop (a +:+ b)
  = match Fmt.until stop b with
    | Some (name, rest) => Some (a +:+ name, rest)
    | None => None
    end.
Proof.
  induction a as [|c a IH]; intros Hc.
  - rewrite app_nil_l. by destruct (Fmt.until stop b) as [[name rest]|].
  - simpl in Hc. apply orb_false_iff in Hc as [Hc1 Hc].
    rewrite app_cons. cbn [Fmt.until]. rewrite Hc1, IH by done.
    by destruct (Fmt.until stop b) as [[name rest]|].
Qed.

(** A replacement field without a brace inside is read up to its closing
    brace. *)
Lemma format_loop_field fuel body rest fields :
  contains "{" body = false -> contains "}" body = false ->
  Fmt.format_loop (S fuel) (String "{" (body +:+ String "}" rest)) fields
  = match Fmt.replacement_field body fields, Fmt.format_loop fuel rest fields with
    | Some text, Some out => Some (text +:+ out)
    | _, _ => None
    end.
Proof.
  intros Ho Hc.
  pose proof (until_found "}" body rest Hc) as Huntil.
  destruct body as [|a body].
  - rewrite app_nil_l in *. cbn [Fmt.format_loop]. by rewrite Huntil.
  - simpl in Ho. apply orb_false_iff in Ho as [Ha _].
    rewrite app_cons in Huntil. rewrite app_cons.
    destruct a as [[] [] [] [] [] [] [] []]; try discriminate;
      cbn [Fmt.format_loop]; by rewrite Huntil.
Qed.

(** After whole pieces the rest of the template is read from its start, so
    a rest that fails makes the whole template fail. *)
Lemma format_loop_whole pre fields :
  whole_pieces pre ->
  forall fuel t,
    (String.length (pre +:+ t) <= fuel)%nat ->
    (forall fuel', (String.length t <= fuel')%nat -> Fmt.format_loop fuel' t fields = None) ->
    Fmt.format_loop fuel (pre +:+ t) fields = None.
Proof.
  induction 1 as [|c pre Ho Hc Hpre IH|pre Hpre IH|pre Hpre IH|body pre Ho Hc Hpre IH];
    intros fuel t Hlen Ht.
  - rewrite app_nil_l in *. by apply Ht.
  - rewrite app_cons in *. destruct fuel as [|fuel]; [simpl in Hlen; lia|].
    rewrite format_loop_literal by done. rewrite IH; [done| |done]. simpl in Hlen. lia.
  - rewrite !app_cons in *. destruct fuel as [|fuel]; [simpl in Hlen; lia|].
    cbn [Fmt.format_loop]. rewrite IH; [done| |done]. simpl in Hlen. lia.
  - rewrite !app_cons in *. destruct fuel as [|fuel]; [simpl in Hlen; lia|].
    cbn [Fmt.format_loop]. rewrite IH; [done| |done]. simpl in Hlen. lia.
  - assert (String "{" (body +:+ String "}" pre) +:+ t
            = String "{" (body +:+ String "}" (pre +:+ t))) as Hshape
      by (by rewrite app_cons, app_assoc, app_cons).
    rewrite Hshape in *. destruct fuel as [|fuel]; [simpl in Hlen; lia|].
    rewrite format_loop_field by done. rewrite IH; [| |done].
    + by destruct (Fmt.replacement_field body fields).
    + simpl in Hlen. rewrite length_app in Hlen. simpl in Hlen. lia.
Qed.

(** Without [index] and [counter] among the keyword arguments, a field
    whose name starts with one of the two has no value. *)
Lemma field_missing fields field more :
  fk_index fields = None -> fk_counter fields = None ->
  field = "index" \/ field = "counter" ->
  Fmt.field fields (field +:+ more) = None.
Proof.
  intros Hi Hc [-> | ->]; unfold Fmt.field; rewrite !app_cons, app_nil_l; simpl.
  - destruct (String.eqb more ""); by rewrite ?Hi.
  - destruct (String.eqb more ""); by rewrite ?Hc.
Qed.

Lemma replacement_field_missing fields field more :
  fk_index fields = None -> fk_counter fields = None ->
  field = "index" \/ field = "counter" ->
  Fmt.replacement_field (field +:+ more) fields = None.
Proof.
  intros Hi Hc Hfield. unfold Fmt.replacement_field.
  rewrite until_app by (by destruct Hfield as [-> | ->]).
  destruct (Fmt.until ":" more) as [[name spec]|].
  - destruct (contains "{" spec); [done|]. by rewrite field_missing.
  - destruct (contains "{" ""); [done|]. by rewrite field_missing.
Qed.

End FormatFacts.

(** X15.  With the default template [{name}{ext}], which pattern mode
    takes when no pattern is given, formatting gives every name back: the
    standalone [rename_with_pattern] returns the filename and a run in
    pattern mode finds nothing to rename. *)
Theorem default_template_changes_nothing
    (d : gmap string node) (kw : kwargs) (stdin : option string)
    (f : string) (files : list string) :
  filter (fun f => isfile d f = true) (listdir d) = f :: files ->
  get (kw_pattern kw) "{name}{ext}" = "{name}{ext}" ->
  (forall filename, @rename_with_pattern model filename "{name}{ext}" = Some filename)
  /\ @bulk_rename model (Some d) "pattern" kw stdin
     = {| run_status := RetNoChanges; run_dir := Some d; run_stdout := [MsgNoChanges] |}.
Proof.
  intros Hfiles Hpattern. split.
  - intros filename. unfold rename_with_pattern.
    pose proof (splitext_join filename) as J.
    destruct (splitext filename) as [name ext]. simpl in J.
    rewrite format_default. simpl. by rewrite J.
  - unfold bulk_rename. rewrite Hfiles.
    destruct (@plan_loop_noop_counter model "pattern" kw
                (enumerate (sort (f :: files)) 1) 1 []) as [c' ->]; [|done].
    intros index filename c. unfold loop_body. simpl.
    rewrite Hpattern, format_default. unfold pattern_fields. simpl.
    rewrite splitext_join. by eexists.
Qed.

Lemma default_template_changes_nothing_witness :
  filter (fun f => isfile dir_abc f = true) (listdir dir_abc) = "c.txt" :: ["a.txt"; "b.txt"]
  /\ @bulk_rename model (Some dir_abc) "pattern" no_kwargs None
     = {| run_status := RetNoChanges; run_dir := Some dir_abc;
          run_stdout := [MsgNoChanges] |}.
Proof.
  assert (Hfiles : filter (fun f => isfile dir_abc f = true) (listdir dir_abc)
                   = "c.txt" :: ["a.txt"; "b.txt"]) by (vm_compute; reflexivity).
  split; [exact Hfiles|].
  exact (proj2 (default_template_changes_nothing dir_abc no_kwargs None _ _
                  Hfiles eq_refl)).
Defined.

(** X16.  [rename_with_pattern] passes only [name] and [ext] to [format]:
    a template with a field [index] or [counter], which its docstring lists,
    makes it raise instead of returning a name, with or without a format
    specification and wherever in the template the field stands (after
    literal text, escaped braces or other fields without a brace inside). *)
Theorem rename_with_pattern_has_no_counter
    (filename pre field more rest : string) :
  whole_pieces pre ->
  field = "index" \/ field = "counter" ->
  contains "{" more = false -> contains "}" more = false ->
  @rename_with_pattern model filename
    (pre +:+ String "{" ((field +:+ more) +:+ String "}" rest))
  = None.
Proof.
  intros Hpre Hfield Ho Hc. unfold rename_with_pattern.
  destruct (splitext filename) as [name ext]. simpl. unfold Fmt.format.
  apply format_loop_whole; [done|done|].
  intros fuel Hlen. destruct fuel as [|fuel]; [simpl in Hlen; lia|].
  rewrite format_loop_field.
  - by rewrite replacement_field_missing.
  - rewrite contains_app, Ho. by destruct Hfield as [-> | ->].
  - rewrite contains_app, Hc. by destruct Hfield as [-> | ->].
Qed.

Lemma rename_with_pattern_has_no_counter_witness :
  @rename_with_pattern model "a.txt" "file_{counter:03d}{ext}" = None
  /\ @rename_with_pattern model "a.txt" "{name}_{index}{ext}" = None.
Proof.
  split.
  - apply (rename_with_pattern_has_no_counter "a.txt" "file_" "counter" ":03d" "{ext}").
    + repeat (apply pieces_literal; [reflexivity|reflexivity|]). apply pieces_end.
    + by right.
    + reflexivity.
    + reflexivity.
  - apply (rename_with_pattern_has_no_counter "a.txt" "{name}_" "index" "" "{ext}").
    + apply (pieces_field "name" "_"); [reflexivity|reflexivity|].
      apply pieces_literal; [reflexivity|reflexivity|]. apply pieces_end.
    + by left.
    + reflexivity.
    + reflexivity.
Defined.

(** * A command line without options *)
Section CommandLineFacts.
Context `{Platform}.
Import Argparse.

Lemma store_lookup_ne dests values ns k :
  k ∉ dests -> store dests values ns !! k = ns !! k.
Proof.
  revert values ns. induction dests as [|dst dests IH]; intros values ns Hnot; [done|].
  apply not_elem_of_cons in Hnot as [Hne Hnot].
  destruct values as [|v values]; [done|]. simpl.
  rewrite IH by done. by rewrite lookup_insert_ne.
Qed.

Lemma help_is_optionlike t : optionlike t = false -> is_help t = false.
Proof.
  intros Ht. unfold is_help.
  destruct (String.eqb_spec t "-h") as [->|_]; [discriminate Ht|].
  destruct (String.eqb_spec t "--help") as [->|_]; [discriminate Ht|]. done.
Qed.

Lemma force_is_optionlike t : optionlike t = false -> is_force t = false.
Proof.
  intros Ht. unfold is_force.
  destruct (String.eqb_spec t "-f") as [->|_]; [discriminate Ht|].
  destruct (String.eqb_spec t "--force") as [->|_]; [discriminate Ht|]. done.
Qed.

Lemma existsb_none (P : string -> bool) (l : list string) :
  Forall (fun t => P t = false) l -> existsb P l = false.
Proof. induction 1 as [|t l Ht _ IH]; [done|]. simpl. by rewrite Ht, IH. Qed.

(** The destinations of the sub-parsers are none of the three attributes
    that the parser itself sets. *)
Lemma subparser_dests mode dests :
  assoc mode subparsers = Some dests ->
  ("directory" ∉ dests) /\ ("mode" ∉ dests) /\ ("force" ∉ dests).
Proof.
  unfold subparsers. simpl.
  repeat (destruct (String.eqb mode _);
          [intros [= <-]; repeat split;
           intros Hin; repeat (apply elem_of_cons in Hin as [Hin|Hin]; [discriminate Hin|]);
           by apply elem_of_nil in Hin|]).
  done.
Qed.

(** With positional arguments only, the parser leaves with a usage error
    or gives a namespace with the directory and without a true [force]. *)
Lemma parse_args_positional argv :
  Forall (fun t => optionlike t = false) argv ->
  parse_args argv = Exit 2
  \/ exists directory rest args,
       argv = directory :: rest /\ parse_args argv = Parsed args
       /\ attr args "directory" = Some directory
       /\ attr_bool args "force" <> Some true.
Proof.
  intros Hall. destruct argv as [|directory rest]; [by left|].
  apply Forall_cons in Hall as [Hd Hrest]. unfold parse_args. rewrite Hd.
  destruct rest as [|mode tokens].
  - right. eexists _, _, _. split; [done|]. split; [done|]. split.
    + unfold attr. rewrite lookup_insert_ne by done. by rewrite lookup_insert_eq.
    + unfold attr_bool. rewrite !lookup_insert_ne by done. by rewrite lookup_empty.
  - apply Forall_cons in Hrest as [Hm Htokens]. rewrite Hm.
    destruct (assoc mode subparsers) as [dests|] eqn:Hassoc; [|by left].
    destruct (subparser_dests _ _ Hassoc) as (Hnd & Hnm & Hnf).
    unfold parse_subcommand.
    rewrite (existsb_none is_help tokens)
      by (eapply Forall_impl; [exact Htokens|]; apply help_is_optionlike).
    rewrite (existsb_none (fun t => optionlike t && negb (is_force t)) tokens)
      by (eapply Forall_impl; [exact Htokens|]; by intros t ->).
    rewrite (existsb_none is_force tokens)
      by (eapply Forall_impl; [exact Htokens|]; apply force_is_optionlike).
    destruct (Nat.eqb _ _); [right|by left].
    eexists _, _, _. split; [done|]. split; [done|]. split.
    + unfold attr. rewrite lookup_insert_ne by done. rewrite store_lookup_ne by done.
      rewrite lookup_insert_ne by done. by rewrite lookup_insert_eq.
    + unfold attr_bool. by rewrite lookup_insert_eq.
Qed.

End CommandLineFacts.

(** X17.  A command line without an argument that starts with [-] never
    renames before asking: either the process leaves without a run (usage
    error, or no mode), or the run is on the directory named first, and
    when the answer is not a confirmation, or the input is at its end, that
    run returns the directory as it was and does not reach the summary. *)
Theorem no_force_no_silent_rename `{Platform}
    (argv : list string) (fs : string -> option (gmap string node))
    (stdin : option string) :
  Forall (fun t => Argparse.optionlike t = false) argv ->
  (forall response, stdin = Some response -> lower (strip response) <> "y") ->
  exists status outcome,
    main argv fs stdin = Some (status, outcome)
    /\ forall r, outcome = Some r ->
         exists directory rest,
           argv = directory :: rest
           /\ run_dir r = fs directory
           /\ forall s e, run_status r <> RetDone s e.
Proof.
  intros Hall Hanswer. unfold main.
  destruct (parse_args_positional argv Hall)
    as [-> | (directory & rest & args & -> & -> & Hdir & Hforce)].
  { eexists _, _. split; [done|]. by intros r [=]. }
  destruct (Argparse.attr args "mode") as [[|a mode]|];
    try (eexists _, _; split; [done|]; by intros r [=]).
  eexists _, _. split; [done|]. intros r [= <-].
  exists directory, rest. split; [done|]. rewrite Hdir. simpl.
  apply unconfirmed_run.
  - simpl. destruct (Argparse.attr_bool args "force") as [[|]|]; done.
  - intros response Hr. apply confirmed_not. by apply Hanswer.
Qed.

Lemma no_force_no_silent_rename_witness :
  Forall (fun t => Argparse.optionlike t = false) ["docs"; "prefix"; "x_"]
  /\ exists status outcome,
       @main model ["docs"; "prefix"; "x_"] (fun _ => Some dir_abc) (Some "no")
       = Some (status, outcome)
       /\ forall r, outcome = Some r ->
            exists directory rest,
              ["docs"; "prefix"; "x_"] = directory :: rest
              /\ run_dir r = (fun _ : string => Some dir_abc) directory
              /\ forall s e, run_status r <> RetDone s e.
Proof.
  assert (Hall : Forall (fun t => Argparse.optionlike t = false) ["docs"; "prefix"; "x_"])
    by (repeat constructor).
  assert (Hanswer : forall response, Some "no" = Some response ->
                                     lower (strip response) <> "y").
  { intros response Heq. injection Heq as <-. vm_compute. discriminate. }
  split; [exact Hall|].
  exact (@no_force_no_silent_rename model ["docs"; "prefix"; "x_"]
           (fun _ => Some dir_abc) (Some "no") Hall Hanswer).
Defined.

(** * github_stars.py: the export file *)
Section ExportFacts.
Import GithubStars.

Lemma endswith_app s suffix : endswith (s +:+ suffix) suffix = true.
Proof.
  induction s as [|a s IH].
  - rewrite app_nil_l. destruct suffix; simpl; by rewrite ?Ascii.eqb_refl, ?String.eqb_refl.
  - rewrite app_cons. simpl. rewrite IH. apply orb_true_r.
Qed.

End ExportFacts.

(** X18.  The file that the results are exported to always has a name that
    ends with [.json]: a name that ends with it is taken as it is, any
    other gets it appended, and doing so twice is doing it once. *)
Theorem export_path_ends_with_json (export : string) :
  GithubStars.endswith (GithubStars.export_path export) ".json" = true
  /\ (GithubStars.endswith export ".json" = true -> GithubStars.export_path export = export)
  /\ (GithubStars.endswith export ".json" = false ->
      GithubStars.export_path export = export +:+ ".json")
  /\ GithubStars.export_path (GithubStars.export_path export)
     = GithubStars.export_path export.
Proof.
  unfold GithubStars.export_path.
  destruct (GithubStars.endswith export ".json") eqn:E; cbn [negb].
  - rewrite ?E. cbn [negb]. by rewrite ?E.
  - rewrite ?endswith_app. cbn [negb]. by rewrite ?endswith_app.
Qed.


(** * Replace mode and the extension *)
Section OccursFacts.

Lemma replace_scan_absent old new s :
  occurs old s = false -> replace_scan old new O s = s.
Proof.
  induction s as [|a s IH]; [done|].
  cbn [occurs replace_scan]. intros [Hp Hs]%orb_false_iff.
  by rewrite Hp, IH.
Qed.

Lemma occurs_empty s : occurs "" s = true.
Proof. by destruct s. Qed.

End OccursFacts.

(** X19.  Replace mode works on the stem alone: a text that does not occur
    in the stem is not replaced, also when it occurs in the extension, and
    the name stays as it is. *)
Theorem replace_text_leaves_extension (filename old_text new_text : string) :
  occurs old_text (splitext filename).1 = false ->
  replace_text filename old_text new_text = filename.
Proof.
  intros Habsent. unfold replace_text.
  pose proof (splitext_join filename) as J.
  destruct (splitext filename) as [name ext]. simpl in *.
  destruct old_text as [|o old]; [by rewrite occurs_empty in Habsent|].
  simpl. by rewrite replace_scan_absent, J.
Qed.

Lemma replace_text_leaves_extension_witness :
  occurs "txt" (splitext "notes.txt").1 = false
  /\ occurs "txt" "notes.txt" = true
  /\ replace_text "notes.txt" "txt" "md" = "notes.txt".
Proof.
  split; [reflexivity|]. split; [reflexivity|].
  exact (replace_text_leaves_extension "notes.txt" "txt" "md" eq_refl).
Defined.

(** X20.  The planner does not look for two entries with one target; the
    executor meets the collision: when the operating system refuses
    nothing, the first of two entries with the same target is renamed (or
    finds the target taken), and the second then finds the target in the
    directory and is counted as an error, unless the file under that name
    was itself renamed in between. *)
Theorem second_of_two_targets_is_an_error `{Platform}
    (pre mid post : list (string * string)) (old1 old2 target : string)
    (st : applied) :
  (forall d old_name new_name, os_error d old_name new_name = false) ->
  is_Some (ap_dir (apply_loop pre st) !! old1) ->
  target ∉ mid.*1 ->
  apply_loop (pre ++ (old1, target) :: mid ++ (old2, target) :: post) st
  = apply_loop post
      (record_error (apply_loop (pre ++ (old1, target) :: mid) st)
         (MsgErrorTargetExists old2 target)).
Proof.
  intros Hos [x Hold] Hmid.
  replace (pre ++ (old1, target) :: mid ++ (old2, target) :: post)
    with ((pre ++ (old1, target) :: mid) ++ (old2, target) :: post)
    by (by rewrite <- List.app_assoc).
  rewrite (apply_loop_app (pre ++ (old1, target) :: mid)).
  assert (path_exists (ap_dir (apply_loop (pre ++ (old1, target) :: mid) st)) target = true)
    as Hex; [|simpl; by rewrite Hex].
  apply path_exists_true. rewrite apply_loop_app. cbn [apply_loop].
  destruct (path_exists (ap_dir (apply_loop pre st)) target) eqn:Hfirst.
  - apply path_exists_true in Hfirst as [y Hy].
    exists y. by apply apply_loop_keeps.
  - unfold os_rename. rewrite Hos, Hold.
    exists x. apply apply_loop_keeps; [|done]. simpl. apply lookup_insert_eq.
Qed.

Lemma second_of_two_targets_is_an_error_witness :
  @apply_loop model ([] ++ ("a.txt", "x.txt") :: [] ++ ("b.txt", "x.txt") :: [])
    {| ap_dir := dir_abc; ap_success := 0; ap_error := 0; ap_stdout := [] |}
  = {| ap_dir := <["x.txt" := File 1]> (<["b.txt" := File 2]> (<["c.txt" := File 3]> ∅));
       ap_success := 1; ap_error := 1;
       ap_stdout := [MsgErrorTargetExists "b.txt" "x.txt"] |}.
Proof.
  assert (Hold : is_Some (dir_abc !! "a.txt")) by (vm_compute; by eexists).
  rewrite (@second_of_two_targets_is_an_error model [] [] [] "a.txt" "b.txt" "x.txt"
             {| ap_dir := dir_abc; ap_success := 0; ap_error := 0; ap_stdout := [] |}
             (fun _ _ _ => eq_refl) Hold (not_elem_of_nil _)).
  vm_compute. reflexivity.
Defined.

Lemma export_path_ends_with_json_witness :
  GithubStars.endswith "stars" ".json" = false
  /\ GithubStars.export_path "stars" = "stars.json"
  /\ GithubStars.export_path "stars.json" = "stars.json".
Proof.
  split; [reflexivity|].
  destruct (export_path_ends_with_json "stars") as (_ & _ & Happend & _).
  destruct (export_path_ends_with_json "stars.json") as (_ & Hkeep & _ & _).
  split; [exact (Happend eq_refl) | exact (Hkeep eq_refl)].
Defined.
